(** * Scan-classify orchestration of the NIRScan Nano substance scanner

    A shallow embedding of [app.py] (button poller, UI state machine,
    scan worker) and [classify.py] (artifact discovery, validation,
    length adjustment, arg-max classification), and the properties of the
    specification that are stated about them.

    Numbers.  Python floats and NumPy float32 values are modelled by
    [pyfloat]: a rational, or the not-a-number value.  Every finite float
    is a rational and the comparisons of finite floats are the comparisons
    of these rationals; a comparison with not-a-number is false, as in
    IEEE 754.  Rounding of arithmetic results and the infinities are not
    modelled. *)

From Stdlib Require Import QArith ZArith List String Ascii Bool Lia.
From Stdlib Require Import DecimalString Lqa.
Import ListNotations.

(** ** Floats *)

Inductive pyfloat : Type :=
| NaN : pyfloat
| Fin : Q -> pyfloat.

(** [a < b] *)
Definition flt (a b : pyfloat) : bool :=
  match a, b with
  | Fin x, Fin y => negb (Qle_bool y x)
  | _, _ => false
  end.

(** [a <= b] *)
Definition fle (a b : pyfloat) : bool :=
  match a, b with
  | Fin x, Fin y => Qle_bool x y
  | _, _ => false
  end.

(** [np.isnan] *)
Definition isnan (a : pyfloat) : bool :=
  match a with NaN => true | Fin _ => false end.

(** [a - b] *)
Definition fsub (a b : pyfloat) : pyfloat :=
  match a, b with
  | Fin x, Fin y => Fin (x - y)
  | _, _ => NaN
  end.

(** [a * b] *)
Definition fmul (a b : pyfloat) : pyfloat :=
  match a, b with
  | Fin x, Fin y => Fin (x * y)
  | _, _ => NaN
  end.

(** The order in which NumPy's [max] and [argmax] look for a maximum:
    not-a-number counts as the largest value. *)
Definition np_le (a b : pyfloat) : bool :=
  match b with
  | NaN => true
  | Fin y => match a with NaN => false | Fin x => Qle_bool x y end
  end.

(** ** Exceptions and results *)

Inductive exn : Type :=
| ValueError (msg : string)
| IndexError (msg : string)
| TypeError (msg : string)
| RuntimeError (msg : string)
| FileNotFoundError (msg : string)
| OtherError (msg : string).

(** [str(e)] *)
Definition str_exn (e : exn) : string :=
  match e with
  | ValueError m | IndexError m | TypeError m
  | RuntimeError m | FileNotFoundError m | OtherError m => m
  end.

Inductive result (A : Type) : Type :=
| Ok : A -> result A
| Raise : exn -> result A.

Arguments Ok {A} _.
Arguments Raise {A} _.

(** ** Calls to the collaborators *)

(** An entry of the scans directory: its name and what
    [stat().st_mtime] gives for it, a finite float. *)
Inductive file : Type := mkFile {
  name : string;
  st_mtime : Q
}.

Inductive call : Type :=
| CallLoadModel : call
| CallScan : call
| CallReadCsv : file -> call
| CallRunModel : list pyfloat -> call
| CallInvoke : list pyfloat -> call.

(** A computation that calls the collaborators of the program (model
    loader, scanner script, CSV reader, interpreter): it extends the log
    of the calls made so far and returns a value or raises. *)
Definition M (A : Type) : Type := list call -> result A * list call.

Definition ret {A} (a : A) : M A := fun log => (Ok a, log).

Definition raise {A} (e : exn) : M A := fun log => (Raise e, log).

Definition bind {A B} (m : M A) (k : A -> M B) : M B :=
  fun log =>
    match m log with
    | (Ok a, log') => k a log'
    | (Raise e, log') => (Raise e, log')
    end.

(** [try: m  except Exception as e: h e] *)
Definition try_except {A} (m : M A) (h : exn -> M A) : M A :=
  fun log =>
    match m log with
    | (Ok a, log') => (Ok a, log')
    | (Raise e, log') => h e log'
    end.

Definition emit (c : call) : M unit := fun log => (Ok tt, log ++ [c]).

Definition lift {A} (r : result A) : M A := fun log => (r, log).

Notation "x <- m ;; k" := (bind m (fun x => k))
  (at level 61, m at next level, right associativity).
Notation "m ;;; k" := (bind m (fun _ => k))
  (at level 61, right associativity).

(** * classify.py *)

Module Classify.

Definition CLASS_NAMES : list string := ["MSG"; "Salt"; "Sugar"]%string.
Definition UNDETECTED_LABEL : string := "Undetected".
Definition CONF_THRESHOLD : pyfloat := Fin 0.8.

(** [get_nir_from_device]: the values as a float32 array. *)
Definition get_nir_from_device (raw_data : list pyfloat) : list pyfloat :=
  raw_data.

(** ** Artifact discovery *)

Definition dot : ascii := "."%char.

(** Index of the last [.] of a name, counted from [i]. *)
Fixpoint rfind_dot (s : list ascii) (i : nat) : option nat :=
  match s with
  | [] => None
  | c :: r =>
      match rfind_dot r (S i) with
      | Some j => Some j
      | None => if Ascii.eqb c dot then Some i else None
      end
  end.

(** [Path.stem]: the name without its last suffix; a dot that starts or
    ends the name does not start a suffix. *)
Definition stem (nm : string) : string :=
  let s := list_ascii_of_string nm in
  match rfind_dot s 0 with
  | Some i =>
      if (0 <? i)%nat && (i <? List.length s - 1)%nat
      then string_of_list_ascii (firstn i s)
      else nm
  | None => nm
  end.

Definition is_digit (c : ascii) : bool :=
  let n := nat_of_ascii c in (48 <=? n)%nat && (n <=? 57)%nat.

(** [str.isdigit], on ASCII names. *)
Definition isdigit (s : string) : bool :=
  let l := list_ascii_of_string s in
  negb (Nat.eqb (List.length l) 0) && forallb is_digit l.

(** The names that [glob("*.csv")] yields. *)
Definition glob_csv (nm : string) : bool :=
  let l := list_ascii_of_string nm in
  let n := List.length l in
  (4 <=? n)%nat &&
  String.eqb (string_of_list_ascii (skipn (n - 4) l)) ".csv".

(** [max(candidates, key=lambda f: f.stat().st_mtime)] on a non-empty
    list: the first file of the largest key. *)
Fixpoint max_mtime (best : file) (rest : list file) : file :=
  match rest with
  | [] => best
  | f :: r =>
      max_mtime (if negb (Qle_bool (st_mtime f) (st_mtime best))
                 then f else best) r
  end.

(** The loop of [find_latest_csv_without_prefix] that collects the
    candidates. *)
Definition candidates (listing : list file) : list file :=
  filter (fun f => glob_csv (name f) && isdigit (stem (name f))) listing.

(** [find_latest_csv_without_prefix]; the directory is its listing, or
    [None] when it does not exist. *)
Definition find_latest_csv_without_prefix
    (scans_dir : option (list file)) : option file :=
  match scans_dir with
  | None => None
  | Some listing =>
      match candidates listing with
      | [] => None
      | f :: r => Some (max_mtime f r)
      end
  end.

(** ** The interpreter *)

(** The loaded model: the shape of its input tensor, and what
    [set_tensor], [invoke], [get_tensor], [squeeze] and the casts to and
    from the model's types give on a prepared input. *)
Record interpreter : Type := mkInterpreter {
  input_shape : list nat;
  invoke : list pyfloat -> result (list pyfloat)
}.

(** ** The world [main] runs in *)

Record world : Type := mkWorld {
  (** [tflite.Interpreter(MODEL_PATH)] and [allocate_tensors] *)
  model_file : result interpreter;
  (** the listing of [SCANS_DIR] before the scan *)
  scans_before : option (list file);
  (** the scanner script: [None] when the file is missing, else the exit
      status of the process *)
  scan_script : option Z;
  (** the listing of [SCANS_DIR] after the scan *)
  scans_after : option (list file);
  (** what [pd.read_csv] and the lookup of the absorbance column give *)
  csv_absorbance : file -> result (list pyfloat)
}.

(** [read_absorbance_column] *)
Definition read_absorbance_column (w : world) (csv_path : file)
    : M (list pyfloat) :=
  emit (CallReadCsv csv_path) ;;;
  lift (csv_absorbance w csv_path).

(** [load_model] *)
Definition load_model (w : world) : M interpreter :=
  emit CallLoadModel ;;;
  lift (model_file w).

(** [run_scan_substance] *)
Definition run_scan_substance (w : world) : M unit :=
  match scan_script w with
  | None => raise (FileNotFoundError "Scanner script not found")
  | Some returncode =>
      emit CallScan ;;;
      if negb (returncode =? 0)%Z
      then raise (RuntimeError "Scan script failed")
      else ret tt
  end.

(** ** Length adjustment and inference *)

(** [expected_len] of [run_model]. *)
Definition expected_len (shape : list nat) (current_len : nat) : nat :=
  if (2 <=? List.length shape)%nat then nth 1 shape 0%nat else current_len.

(** The padding or truncation of [run_model] (lines 96 to 103). *)
Definition adjust_length (spectrum : list pyfloat) (expected : nat)
    : list pyfloat :=
  let current_len := List.length spectrum in
  if negb (current_len =? expected)%nat then
    if (current_len <? expected)%nat then
      let pad_count := (expected - current_len)%nat in
      let pad_value :=
        if (0 <? current_len)%nat then last spectrum (Fin 0) else Fin 0 in
      spectrum ++ repeat pad_value pad_count
    else firstn expected spectrum
  else spectrum.

(** The shapes [run_model] reshapes to: [[1, n, 1]] and [[1, n]]. *)
Definition supported_shape (shape : list nat) : bool :=
  match shape with
  | [a; _; c] => (a =? 1)%nat && (c =? 1)%nat
  | [a; _] => (a =? 1)%nat
  | _ => false
  end.

(** [run_model]; its argument is always an array here, so the test for
    [None] is left out. *)
Definition run_model (interp : interpreter) (spectrum_1d_float : list pyfloat)
    : M (list pyfloat) :=
  emit (CallRunModel spectrum_1d_float) ;;;
  let shape := input_shape interp in
  let expected := expected_len shape (List.length spectrum_1d_float) in
  let spectrum := adjust_length spectrum_1d_float expected in
  if supported_shape shape then
    emit (CallInvoke spectrum) ;;;
    lift (invoke interp spectrum)
  else raise (RuntimeError "Unsupported input shape").

(** ** Classification *)

(** The loop of NumPy's [argmax] on floats: [mp] is the largest value so
    far, at index [max_ind]; a not-a-number stops the search. *)
Fixpoint argmax_from (mp : pyfloat) (max_ind i : nat) (rest : list pyfloat)
    : nat :=
  match rest with
  | [] => max_ind
  | x :: r =>
      if isnan mp then max_ind
      else if negb (fle x mp) then argmax_from x i (S i) r
      else argmax_from mp max_ind (S i) r
  end.

(** [np.argmax]; it raises a [ValueError] on an empty array. *)
Definition np_argmax (a : list pyfloat) : result nat :=
  match a with
  | [] => Raise (ValueError "attempt to get argmax of an empty sequence")
  | x :: r => Ok (argmax_from x 0 1 r)
  end.

(** [CLASS_NAMES[idx]] *)
Definition class_name (idx : nat) : result string :=
  match nth_error CLASS_NAMES idx with
  | Some nm => Ok nm
  | None => Raise (IndexError "list index out of range")
  end.

(** [classify] *)
Definition classify (output : list pyfloat)
    : result (string * pyfloat * list pyfloat) :=
  let probs := output in
  match np_argmax probs with
  | Raise e => Raise e
  | Ok idx =>
      let conf := nth idx probs NaN in
      if flt conf CONF_THRESHOLD then Ok (UNDETECTED_LABEL, conf, probs)
      else
        match class_name idx with
        | Raise e => Raise e
        | Ok label => Ok (label, conf, probs)
        end
  end.

(** ** The pipeline *)

(** [np.diff] *)
Fixpoint np_diff (a : list pyfloat) : list pyfloat :=
  match a with
  | x :: (y :: _) as t => fsub y x :: np_diff t
  | _ => []
  end.

Definition SCAN_AGAIN : string :=
  "Not enough valid absorbance points to compute differences. Please scan again!".

(** The test of line 184. *)
Definition invalid_absorbance (absorbance_vals : list pyfloat) : bool :=
  existsb isnan absorbance_vals || (List.length absorbance_vals <? 228)%nat.

(** What [main] returns: the triple [(label, conf, err)], or [None]. *)
Definition outcome : Type := option (string * pyfloat * string).

(** The body of the [try] of [main] (lines 178 to 200). *)
Definition main_try (w : world) (interp : interpreter) (latest : file)
    : M outcome :=
  let label := ""%string in
  let conf := Fin 0 in
  let err := ""%string in
  absorbance_vals <- read_absorbance_column w latest ;;
  if invalid_absorbance absorbance_vals then
    let err := SCAN_AGAIN in
    ret (Some (label, conf, err))
  else
    let delta_vals := np_diff absorbance_vals in
    let x_float := get_nir_from_device delta_vals in
    output <- run_model interp x_float ;;
    r <- lift (classify output) ;;
    let '(label, conf, probs) := r in
    ret (Some (label, conf, err)).

(** The test of line 172. *)
Definition stale (last_processed_mtime : option Q) (mtime : Q) : bool :=
  match last_processed_mtime with
  | Some b => Qle_bool mtime b
  | None => false
  end.

(** [main] *)
Definition main (w : world) : M outcome :=
  interp <- load_model w ;;
  let pre_latest := find_latest_csv_without_prefix (scans_before w) in
  let last_processed_mtime := option_map st_mtime pre_latest in
  scanned <- try_except (run_scan_substance w ;;; ret true)
                        (fun _ => ret false) ;;
  if negb scanned then ret None
  else
    match find_latest_csv_without_prefix (scans_after w) with
    | None => ret None
    | Some latest =>
        let mtime := st_mtime latest in
        if stale last_processed_mtime mtime then ret None
        else try_except (main_try w interp latest) (fun _ => ret None)
    end.

(** A run of [main] from an empty log. *)
Definition run_main (w : world) : result outcome * list call := main w [].

End Classify.

(** * app.py *)

Module App.

(** ** Hardware functions *)

Inductive button : Type := ENTER | UP | DOWN | RIGHT.

Definition button_eqb (a b : button) : bool :=
  match a, b with
  | ENTER, ENTER | UP, UP | DOWN, DOWN | RIGHT, RIGHT => true
  | _, _ => false
  end.

(** Comparison of two values that are a button name or [None]. *)
Definition press_eqb (a b : option button) : bool :=
  match a, b with
  | None, None => true
  | Some x, Some y => button_eqb x y
  | _, _ => false
  end.

(** What the two I2C transfers of one conversion give: an exception, or
    the two bytes of the conversion register. *)
Inductive bus_reply : Type :=
| BusFault : bus_reply
| BusData : Z -> Z -> bus_reply.

(** [read_ads1115]; [bus] is [None] when [smbus2] could not be imported.
    The scaling [raw * (4.096 / 32768.0) * 1000] is done in exact
    arithmetic. *)
Definition read_ads1115 (bus : option bus_reply) : pyfloat :=
  match bus with
  | None => Fin 9999
  | Some BusFault => Fin 9999
  | Some (BusData d0 d1) =>
      let raw := Z.lor (Z.shiftl d0 8) d1 in
      let raw := if (raw >? 32767)%Z then (raw - 65536)%Z else raw in
      Fin (inject_Z raw * (4.096 / 32768) * 1000)
  end.

(** [detect_button] *)
Definition detect_button (mv : pyfloat) : option button :=
  if flt mv (Fin 20) then Some ENTER
  else if fle (Fin 70) mv && fle mv (Fin 160) then Some UP
  else if fle (Fin 200) mv && fle mv (Fin 350) then Some DOWN
  else if fle (Fin 450) mv && fle mv (Fin 700) then Some RIGHT
  else None.

(** The voltage ranges of the buttons, as the specification lists them:
    below 20 for ENTER, [70,160] for UP, [200,350] for DOWN, [450,700]
    for RIGHT. *)
Definition in_range (b : button) (mv : pyfloat) : Prop :=
  match mv with
  | NaN => False
  | Fin q =>
      match b with
      | ENTER => q < 20
      | UP => 70 <= q /\ q <= 160
      | DOWN => 200 <= q /\ q <= 350
      | RIGHT => 450 <= q /\ q <= 700
      end
  end.

(** ** Button loop *)

(** The state of [poll_buttons] between two samples: [last_press] and the
    events appended to [button_queue] so far, oldest first. *)
Record poller : Type := mkPoller {
  last_press : option button;
  appended : list button
}.

(** One iteration of the loop of [poll_buttons], on the sample [mv] that
    [read_ads1115] returned. *)
Definition poll_sample (p : poller) (mv : pyfloat) : poller :=
  let btn := detect_button mv in
  if negb (press_eqb btn p.(last_press)) then
    mkPoller btn
      (match btn with
       | Some b => p.(appended) ++ [b]
       | None => p.(appended)
       end)
  else p.

(** [poll_buttons] over a finite sequence of samples. *)
Definition poll_buttons (samples : list pyfloat) : poller :=
  fold_left poll_sample samples (mkPoller None []).

(** ** The application state *)

Inductive screen : Type := menu | scan.

Inductive status : Type := IDLE | SCANNING | RESULT | ERROR.

Definition status_eqb (a b : status) : bool :=
  match a, b with
  | IDLE, IDLE | SCANNING, SCANNING | RESULT, RESULT | ERROR, ERROR => true
  | _, _ => false
  end.

(** The fields of [TFTApp] that the input logic and the worker use, and
    [workers]: the number of worker threads that [start_scan] started and
    that have not finished. *)
Record app : Type := mkApp {
  running : bool;
  current_screen : screen;
  focus_index : Z;
  scan_status : status;
  result_text : string;
  conf_text : string;
  button_queue : list button;
  workers : nat
}.

Definition set_running (v : bool) (a : app) : app :=
  mkApp v a.(current_screen) a.(focus_index) a.(scan_status)
        a.(result_text) a.(conf_text) a.(button_queue) a.(workers).

Definition set_current_screen (v : screen) (a : app) : app :=
  mkApp a.(running) v a.(focus_index) a.(scan_status)
        a.(result_text) a.(conf_text) a.(button_queue) a.(workers).

Definition set_focus_index (v : Z) (a : app) : app :=
  mkApp a.(running) a.(current_screen) v a.(scan_status)
        a.(result_text) a.(conf_text) a.(button_queue) a.(workers).

Definition set_scan_status (v : status) (a : app) : app :=
  mkApp a.(running) a.(current_screen) a.(focus_index) v
        a.(result_text) a.(conf_text) a.(button_queue) a.(workers).

Definition set_result_text (v : string) (a : app) : app :=
  mkApp a.(running) a.(current_screen) a.(focus_index) a.(scan_status)
        v a.(conf_text) a.(button_queue) a.(workers).

Definition set_conf_text (v : string) (a : app) : app :=
  mkApp a.(running) a.(current_screen) a.(focus_index) a.(scan_status)
        a.(result_text) v a.(button_queue) a.(workers).

Definition set_button_queue (v : list button) (a : app) : app :=
  mkApp a.(running) a.(current_screen) a.(focus_index) a.(scan_status)
        a.(result_text) a.(conf_text) v a.(workers).

Definition set_workers (v : nat) (a : app) : app :=
  mkApp a.(running) a.(current_screen) a.(focus_index) a.(scan_status)
        a.(result_text) a.(conf_text) a.(button_queue) v.

(** The state that [__init__] leaves. *)
Definition init : app := mkApp true menu 0 IDLE "" "" [] 0.

(** [get_next_button] *)
Definition get_next_button (a : app) : option button * app :=
  match a.(button_queue) with
  | b :: q => (Some b, set_button_queue q a)
  | [] => (None, a)
  end.

(** ** Scan logic *)

(** [start_scan]: the status is set and a worker thread is started. *)
Definition start_scan (a : app) : app :=
  let a := set_scan_status SCANNING a in
  set_workers (S a.(workers)) a.

(** [str.upper] on ASCII letters. *)
Definition upper_char (c : ascii) : ascii :=
  let n := nat_of_ascii c in
  if (97 <=? n)%nat && (n <=? 122)%nat then ascii_of_nat (n - 32) else c.

Definition upper (s : string) : string :=
  string_of_list_ascii (map upper_char (list_ascii_of_string s)).

(** The nearest integer, ties to even. *)
Definition round_half_even (q : Q) : Z :=
  let d := Zpos (Qden q) in
  let fl := (Qnum q / d)%Z in
  let r := (Qnum q mod d)%Z in
  match (2 * r ?= d)%Z with
  | Lt => fl
  | Gt => (fl + 1)%Z
  | Eq => if Z.even fl then fl else (fl + 1)%Z
  end.

Definition string_of_Z (z : Z) : string :=
  NilZero.string_of_int (Z.to_int z).

(** [f"{x:.1f}"], on the exact value of [x]. *)
Definition format_1f (x : pyfloat) : string :=
  match x with
  | NaN => "nan"
  | Fin q =>
      let t := round_half_even (q * 10) in
      ((if (t <? 0)%Z then "-" else "") ++
       string_of_Z (Z.abs t / 10) ++ "." ++ string_of_Z (Z.abs t mod 10))%string
  end.

Definition NONE_UNPACK : string :=
  "cannot unpack non-iterable NoneType object".

(** [res, conf, err = classify.main()]: the call raises what [main]
    raises, and unpacking [None] raises a [TypeError]. *)
Definition unpack_main (r : result Classify.outcome)
    : result (string * pyfloat * string) :=
  match r with
  | Raise e => Raise e
  | Ok None => Raise (TypeError NONE_UNPACK)
  | Ok (Some t) => Ok t
  end.

(** The first statement of the [try] of [worker]; [classify_main] is
    [None] when the module [classify] could not be imported. *)
Definition worker_call (classify_main : option (result Classify.outcome))
    : result (string * pyfloat * string) :=
  match classify_main with
  | Some r => unpack_main r
  | None => Ok ("No Model", Fin 0, "Missing File")%string
  end.

(** The writes of [worker] (lines 189 to 204), given what the call of
    [classify.main] gave. *)
Definition worker_writes (classify_main : option (result Classify.outcome))
    (a : app) : app :=
  match worker_call classify_main with
  | Ok (res, conf, err) =>
      if negb (String.eqb err "") then
        set_conf_text err
          (set_result_text "SYS ERR" (set_scan_status ERROR a))
      else if String.eqb res "Undetected" || String.eqb res "UNKNOWN" then
        set_conf_text "---"
          (set_result_text "UNDETECTED" (set_scan_status RESULT a))
      else
        set_conf_text (format_1f (fmul conf (Fin 100)) ++ "%")
          (set_result_text (upper res) (set_scan_status RESULT a))
  | Raise e =>
      set_conf_text (str_exn e)
        (set_result_text "CRASH" (set_scan_status ERROR a))
  end.

(** A worker thread runs to its end. *)
Definition worker_finish (classify_main : option (result Classify.outcome))
    (a : app) : app :=
  let a := worker_writes classify_main a in
  set_workers (pred a.(workers)) a.

(** ** Input logic *)

(** [handle_input] *)
Definition handle_input (a : app) (key : button) : app :=
  match a.(current_screen) with
  | menu =>
      if button_eqb key UP || button_eqb key DOWN then
        set_focus_index (1 - a.(focus_index)) a
      else if button_eqb key ENTER then
        if (a.(focus_index) =? 0)%Z then
          set_scan_status IDLE (set_current_screen scan a)
        else set_running false a
      else a
  | scan =>
      if button_eqb key ENTER && negb (status_eqb a.(scan_status) SCANNING)
      then start_scan a
      else if button_eqb key RIGHT then set_current_screen menu a
      else a
  end.

(** ** The loop *)

(** One iteration of the loop of [run]; [quit] tells whether
    [pygame.event.get()] holds a [QUIT] event.  Drawing is left out. *)
Definition tick (quit : bool) (a : app) : app :=
  let a := if quit then set_running false a else a in
  let '(btn, a) := get_next_button a in
  match btn with
  | Some b => handle_input a b
  | None => a
  end.

(** What happens to the application, in the order of the interleaving of
    its threads: the poller appends a button to the queue, the loop of
    [run] makes one iteration, a worker finishes. *)
Inductive event : Type :=
| Press : button -> event
| Tick : bool -> event
| WorkerDone : option (result Classify.outcome) -> event.

(** Nothing happens after [running] has become false: the loops of [run]
    and [poll_buttons] end and the process exits with its daemon
    threads.  A worker finishes only if there is one. *)
Definition step (a : app) (ev : event) : app :=
  if negb a.(running) then a
  else
    match ev with
    | Press b => set_button_queue (a.(button_queue) ++ [b]) a
    | Tick quit => tick quit a
    | WorkerDone r =>
        if (a.(workers) =? 0)%nat then a else worker_finish r a
    end.

Definition exec (a : app) (evs : list event) : app := fold_left step evs a.

(** ** Display start *)

(** The loop of [safe_init_pygame_display] from the iteration [i], with
    [n] iterations left.  [attempt i] is what the body of the [try] gives
    in the iteration [i]: the screen, or an exception.  The result comes
    with the number of calls of [time.sleep(0.5)]. *)
Fixpoint init_display_from {Scr : Type} (attempt : nat -> result Scr)
    (i n : nat) : result Scr * nat :=
  match n with
  | O => (Raise (RuntimeError "Display Init Failed"), 0%nat)
  | S n' =>
      match attempt i with
      | Ok screen => (Ok screen, 0%nat)
      | Raise _ =>
          let '(r, sleeps) := init_display_from attempt (S i) n' in
          (r, S sleeps)
      end
  end.

(** [safe_init_pygame_display] *)
Definition safe_init_pygame_display {Scr : Type}
    (attempt : nat -> result Scr) : result Scr * nat :=
  init_display_from attempt 0 30.

(** ** The scan line of [draw_scan_ui] *)

Definition VIRTUAL_W : Z := 320.
Definition VIRTUAL_H : Z := 240.
Definition box_w : Z := 200.
Definition box_h : Z := 140.
Definition box_x : Z := (VIRTUAL_W - box_w) / 2.
Definition box_y : Z := (VIRTUAL_H - box_h) / 2 + 10.

(** The two fields of [TFTApp] that [draw_scan_ui] animates. *)
Record scan_line : Type := mkScanLine {
  scan_line_y : Z;
  scan_direction : Z
}.

(** Their values after [__init__]. *)
Definition scan_line_init : scan_line := mkScanLine 0 1.

(** The update of the SCANNING branch of [draw_scan_ui] (lines 283 to
    285), once per frame. *)
Definition move_scan_line (s : scan_line) : scan_line :=
  let y := (s.(scan_line_y) + 3 * s.(scan_direction))%Z in
  let d := if (y >? box_h)%Z then (-1)%Z else s.(scan_direction) in
  let d := if (y <? 0)%Z then 1%Z else d in
  mkScanLine y d.

(** The height [ly] at which the line is drawn. *)
Definition line_height (s : scan_line) : Z := (box_y + s.(scan_line_y))%Z.

End App.

(** * scan_substance.py *)

Module ScanSubstance.

(** ** Absorbance *)

(** [a / b] for a positive [b]. *)
Definition fdiv_pos (a b : pyfloat) : pyfloat :=
  match a, b with
  | Fin x, Fin y => Fin (x / y)
  | _, _ => NaN
  end.

(** An operation on two arrays, element by element, with NumPy's
    broadcasting of an array of one element. *)
Definition broadcast2 (f : pyfloat -> pyfloat -> pyfloat)
    (a b : list pyfloat) : result (list pyfloat) :=
  if (List.length a =? List.length b)%nat then
    Ok (map (fun xy => f (fst xy) (snd xy)) (combine a b))
  else
    match a, b with
    | [x], _ => Ok (map (f x) b)
    | _, [y] => Ok (map (fun x => f x y) a)
    | _, _ =>
        Raise (ValueError "operands could not be broadcast together")
    end.

(** One element of
    [np.where(references > 0, intensities / references, np.nan)]. *)
Definition reflectance_at (intensity reference : pyfloat) : pyfloat :=
  if flt (Fin 0) reference then fdiv_pos intensity reference else NaN.

Section Absorbance.

(** [np.log10] on the positive numbers. *)
Variable log10 : Q -> Q.

(** One element of
    [np.where(reflectance > 0, -np.log10(reflectance), np.nan)]. *)
Definition absorbance_at (reflectance : pyfloat) : pyfloat :=
  if flt (Fin 0) reflectance then
    match reflectance with
    | Fin q => Fin (- log10 q)
    | NaN => NaN
    end
  else NaN.

(** The absorbance of [acquire_spectrum] (lines 75 to 80); [references]
    is [None] when the device gave none. *)
Definition compute_absorbance (intensities : list pyfloat)
    (references : option (list pyfloat)) : result (option (list pyfloat)) :=
  match references with
  | None => Ok None
  | Some refs =>
      match broadcast2 reflectance_at intensities refs with
      | Raise e => Raise e
      | Ok reflectance => Ok (Some (map absorbance_at reflectance))
      end
  end.

End Absorbance.

(** [np.full_like(intensities, np.nan)]: the references of the simulated
    spectrum. *)
Definition simulated_references (intensities : list pyfloat)
    : list pyfloat :=
  repeat NaN (List.length intensities).

(** ** The name of the saved file *)







End ScanSubstance.

(** * Definitions for the statements *)

Import Classify App.

(** The run of [main], once the model is loaded. *)
Definition after_load (w : world) (interp : interpreter)
    : result outcome * list call :=
  match scan_script w with
  | None => (Ok None, [CallLoadModel])
  | Some rc =>
      if (rc =? 0)%Z then
        match find_latest_csv_without_prefix (scans_after w) with
        | None => (Ok None, [CallLoadModel; CallScan])
        | Some latest =>
            if stale (option_map st_mtime
                        (find_latest_csv_without_prefix (scans_before w)))
                     (st_mtime latest)
            then (Ok None, [CallLoadModel; CallScan])
            else try_except (main_try w interp latest) (fun _ => ret None)
                            [CallLoadModel; CallScan]
        end
      else (Ok None, [CallLoadModel; CallScan])
  end.

(** ** Sample worlds *)

Definition old_scan : file := mkFile "20251210152633.csv" 100.
Definition new_scan : file := mkFile "20251210160000.csv" 200.
Definition labelled_scan : file := mkFile "sugar-20251210170000.csv" 300.

(** A model with the input shape [[1, 227, 1]] that answers [out]. *)
Definition model_of (out : list pyfloat) : interpreter :=
  mkInterpreter [1; 227; 1]%nat (fun _ => Ok out).

(** A world with one earlier scan in the directory, in which the scanner
    exits with [rc], leaves the listing [after], every CSV reads as [csv]
    and the model answers [out]. *)
Definition bench_world (rc : Z) (after : list file)
    (csv : result (list pyfloat)) (out : list pyfloat) : world :=
  mkWorld (Ok (model_of out)) (Some [old_scan]) (Some rc) (Some after)
          (fun _ => csv).

(** A confidence within the bounds of the specification. *)
Definition unit_interval (c : pyfloat) : Prop :=
  match c with
  | NaN => False
  | Fin q => 0 <= q /\ q <= 1
  end.

(** The error display that [worker] leaves. *)
Definition shows_error (a : app) (code detail : string) : Prop :=
  scan_status a = ERROR /\ result_text a = code /\ conf_text a = detail.

(** [main] returned a classification: a triple with an empty [err]. *)
Definition classified (r : option (result outcome)) : Prop :=
  exists label conf, r = Some (Ok (Some (label, conf, ""%string))).

(** The worker starts, the user leaves the scan screen with RIGHT, comes
    back through the menu and presses ENTER again, while the first worker
    has not finished. *)
Definition reenter_events : list event :=
  [Press ENTER; Tick false;      (* menu, focus 0: to the scan screen *)
   Press ENTER; Tick false;      (* start the first worker *)
   Press RIGHT; Tick false;      (* back to the menu *)
   Press ENTER; Tick false;      (* to the scan screen again *)
   Press ENTER; Tick false].     (* start a second worker *)



(** The calls of a run of [main] that goes through: on the artifact
    [f], the absorbance column [a] and the interpreter input [x]. *)
Definition full_calls (f : file) (a x : list pyfloat) : list call :=
  [CallLoadModel; CallScan; CallReadCsv f; CallRunModel (np_diff a);
   CallInvoke x].


(** * Properties *)

(** ** Comparisons *)

Lemma flt_Fin (x y : Q) : flt (Fin x) (Fin y) = true <-> x < y.
Proof.
  unfold flt. rewrite negb_true_iff.
  destruct (Qle_bool y x) eqn:E.
  - apply Qle_bool_iff in E. split; [discriminate|].
    intro H. exfalso. exact (Qlt_not_le _ _ H E).
  - split; [|reflexivity]. intros _.
    apply Qnot_le_lt. intro H. apply Qle_bool_iff in H. congruence.
Qed.

Lemma fle_Fin (x y : Q) : fle (Fin x) (Fin y) = true <-> x <= y.
Proof. unfold fle. apply Qle_bool_iff. Qed.

Lemma flt_Fin_false (x y : Q) : flt (Fin x) (Fin y) = false <-> y <= x.
Proof.
  unfold flt. rewrite negb_false_iff. apply Qle_bool_iff.
Qed.

Lemma fle_Fin_false (x y : Q) : fle (Fin x) (Fin y) = false <-> y < x.
Proof.
  unfold fle. destruct (Qle_bool x y) eqn:E.
  - apply Qle_bool_iff in E. split; [discriminate|].
    intro H. exfalso. exact (Qlt_not_le _ _ H E).
  - split; [|reflexivity]. intros _.
    apply Qnot_le_lt. intro H. apply Qle_bool_iff in H. congruence.
Qed.

(** ** The button mapping *)

Ltac cmp_Q :=
  repeat match goal with
  | H : flt (Fin _) (Fin _) = true |- _ => apply flt_Fin in H
  | H : flt (Fin _) (Fin _) = false |- _ => apply flt_Fin_false in H
  | H : fle (Fin _) (Fin _) = true |- _ => apply fle_Fin in H
  | H : fle (Fin _) (Fin _) = false |- _ => apply fle_Fin_false in H
  end.

Ltac split_cmp :=
  repeat match goal with
  | |- context [flt ?a ?b] => destruct (flt a b) eqn:?
  | |- context [fle ?a ?b] => destruct (fle a b) eqn:?
  end.

(** [detect_button] returns a button exactly on the range of that button. *)
Lemma detect_button_range (mv : pyfloat) (b : button) :
  detect_button mv = Some b <-> in_range b mv.
Proof.
  destruct mv as [|q].
  - simpl. split; [discriminate|tauto].
  - unfold detect_button, in_range.
    split_cmp; simpl; cmp_Q; destruct b; split; intro H;
      try discriminate; try reflexivity; try lra; exfalso; lra.
Qed.

(** C8. A sample outside every range maps to no button: in the gaps
    between the ranges, above all of them, and at the value 9999 that
    [read_ads1115] returns when the bus fails or is absent; no sample is
    in the range of two buttons. *)
Theorem detect_button_outside_ranges :
  (forall mv, (forall b, ~ in_range b mv) -> detect_button mv = None) /\
  (forall q, (20 <= q /\ q < 70) \/ (160 < q /\ q < 200) \/
             (350 < q /\ q < 450) \/ 700 < q ->
             detect_button (Fin q) = None) /\
  detect_button (Fin 9999) = None /\
  detect_button (read_ads1115 None) = None /\
  detect_button (read_ads1115 (Some BusFault)) = None /\
  (forall mv b1 b2, in_range b1 mv -> in_range b2 mv -> b1 = b2).
Proof.
  repeat split.
  - intros mv H. destruct (detect_button mv) as [b|] eqn:E; [|reflexivity].
    apply detect_button_range in E. destruct (H b E).
  - intros q H. unfold detect_button.
    split_cmp; simpl; cmp_Q; try reflexivity; exfalso; lra.
  - intros [|q] b1 b2 H1 H2; [destruct H1|].
    destruct b1, b2; simpl in H1, H2; try reflexivity; exfalso; lra.
Qed.

Lemma detect_button_outside_ranges_witness :
  detect_button (Fin 180) = None /\ detect_button (Fin 10) <> Some UP.
Proof.
  destruct detect_button_outside_ranges as (_ & Hgap & _ & _ & _ & Hdisj).
  split.
  - apply Hgap. right. left. split; reflexivity.
  - intro H. apply detect_button_range in H.
    assert (E : ENTER = UP) by (apply (Hdisj (Fin 10)); [reflexivity | exact H]).
    discriminate E.
Defined.

(** ** The button loop *)

(** While the button of [last_press] stays down, the loop changes nothing. *)
Lemma poll_same (samples : list pyfloat) (p : poller) :
  Forall (fun mv => detect_button mv = last_press p) samples ->
  fold_left poll_sample samples p = p.
Proof.
  induction samples as [|mv samples IH]; intro H; simpl.
  - reflexivity.
  - inversion H as [|? ? Hmv Hrest]; subst.
    assert (E : poll_sample p mv = p).
    { unfold poll_sample. rewrite Hmv.
      destruct (last_press p) as [[]|]; reflexivity. }
    rewrite E. apply IH. exact Hrest.
Qed.

(** A button that goes down after a different reading appends one event,
    however long it is held. *)
Lemma poll_press (samples : list pyfloat) (p : poller) (b : button) :
  samples <> [] ->
  last_press p <> Some b ->
  Forall (fun mv => detect_button mv = Some b) samples ->
  fold_left poll_sample samples p = mkPoller (Some b) (appended p ++ [b]).
Proof.
  intros Hne Hlast H. destruct samples as [|mv samples]; [congruence|].
  inversion H as [|? ? Hmv Hrest]; subst. simpl.
  assert (E : poll_sample p mv = mkPoller (Some b) (appended p ++ [b])).
  { unfold poll_sample. rewrite Hmv.
    destruct (last_press p) as [b'|] eqn:El; simpl.
    - destruct (button_eqb b b') eqn:Eb; [|reflexivity].
      exfalso. apply Hlast. destruct b, b'; try discriminate; reflexivity.
    - reflexivity. }
  rewrite E. apply poll_same. exact Hrest.
Qed.

(** A release appends nothing. *)
Lemma poll_release (samples : list pyfloat) (p : poller) :
  samples <> [] ->
  Forall (fun mv => detect_button mv = None) samples ->
  fold_left poll_sample samples p = mkPoller None (appended p).
Proof.
  intros Hne H. destruct samples as [|mv samples]; [congruence|].
  inversion H as [|? ? Hmv Hrest]; subst. simpl.
  assert (E : poll_sample p mv = mkPoller None (appended p)).
  { unfold poll_sample. rewrite Hmv.
    destruct p as [[b'|] q]; reflexivity. }
  rewrite E. apply poll_same. exact Hrest.
Qed.

(** C7. A run of samples that all map to one button appends exactly one
    event; a press, a release and a press of the same button again append
    exactly two. *)
Theorem poll_buttons_debounce (b : button) :
  (forall held,
      held <> [] ->
      Forall (fun mv => detect_button mv = Some b) held ->
      appended (poll_buttons held) = [b]) /\
  (forall press1 release press2,
      press1 <> [] -> release <> [] -> press2 <> [] ->
      Forall (fun mv => detect_button mv = Some b) press1 ->
      Forall (fun mv => detect_button mv = None) release ->
      Forall (fun mv => detect_button mv = Some b) press2 ->
      appended (poll_buttons (press1 ++ release ++ press2)) = [b; b]).
Proof.
  split.
  - intros held Hne H. unfold poll_buttons.
    rewrite (poll_press held (mkPoller None []) b Hne); [reflexivity| |exact H].
    simpl. discriminate.
  - intros press1 release press2 Hn1 Hn2 Hn3 H1 H2 H3. unfold poll_buttons.
    rewrite !fold_left_app.
    rewrite (poll_press press1 (mkPoller None []) b Hn1);
      [|simpl; discriminate|exact H1].
    rewrite (poll_release release _ Hn2 H2). simpl.
    rewrite (poll_press press2 _ b Hn3); [reflexivity|simpl; discriminate|exact H3].
Qed.

Lemma poll_buttons_debounce_witness :
  appended (poll_buttons [Fin 100; Fin 101; Fin 99]) = [UP] /\
  appended (poll_buttons ([Fin 100; Fin 101] ++ [Fin 9999] ++ [Fin 100])) = [UP; UP].
Proof.
  split.
  - apply (proj1 (poll_buttons_debounce UP)); [discriminate|].
    repeat constructor.
  - apply (proj2 (poll_buttons_debounce UP)); try discriminate;
      repeat constructor.
Defined.

(** ** Length adjustment *)

Lemma adjust_length_same (x : list pyfloat) :
  adjust_length x (List.length x) = x.
Proof. unfold adjust_length. rewrite Nat.eqb_refl. reflexivity. Qed.

Lemma adjust_length_pad (x : list pyfloat) (L : nat) :
  x <> [] -> (List.length x <= L)%nat ->
  adjust_length x L = x ++ repeat (last x (Fin 0)) (L - List.length x).
Proof.
  intros Hne Hle. unfold adjust_length.
  destruct (Nat.eqb_spec (List.length x) L) as [E|E]; simpl.
  - subst L. rewrite Nat.sub_diag. simpl. now rewrite app_nil_r.
  - assert (Hlt : (List.length x <? L)%nat = true) by (apply Nat.ltb_lt; lia).
    rewrite Hlt.
    assert (Hpos : (0 <? List.length x)%nat = true).
    { apply Nat.ltb_lt. destruct x; [congruence|simpl; lia]. }
    rewrite Hpos. reflexivity.
Qed.

Lemma adjust_length_truncate (x : list pyfloat) (n : nat) :
  (n <= List.length x)%nat -> adjust_length x n = firstn n x.
Proof.
  intro Hle. unfold adjust_length.
  destruct (Nat.eqb_spec (List.length x) n) as [E|E]; simpl.
  - subst n. now rewrite firstn_all.
  - assert (Hlt : (List.length x <? n)%nat = false) by (apply Nat.ltb_ge; lia).
    now rewrite Hlt.
Qed.

(** C9. Padding a non-empty array with its last element up to a length
    [L] and truncating the result to the length of the array gives the
    array back; an array of the expected length is left as it is, and
    [run_model] hands it to the interpreter unchanged. *)
Theorem pad_truncate_roundtrip (x : list pyfloat) (L : nat) :
  x <> [] ->
  (List.length x <= L)%nat ->
  adjust_length x L = x ++ repeat (last x (Fin 0)) (L - List.length x) /\
  List.length (adjust_length x L) = L /\
  adjust_length (adjust_length x L) (List.length x) = x /\
  firstn (List.length x) (adjust_length x L) = x /\
  adjust_length x (List.length x) = x /\
  (forall interp log,
      supported_shape (input_shape interp) = true ->
      expected_len (input_shape interp) (List.length x) = List.length x ->
      run_model interp x log =
      (invoke interp x, log ++ [CallRunModel x] ++ [CallInvoke x])).
Proof.
  intros Hne Hle.
  pose proof (adjust_length_pad x L Hne Hle) as Hpad.
  assert (Hlen : List.length (adjust_length x L) = L).
  { rewrite Hpad, length_app, repeat_length. lia. }
  assert (Hfirst : firstn (List.length x) (adjust_length x L) = x).
  { rewrite Hpad, firstn_app, Nat.sub_diag, firstn_all. simpl.
    now rewrite app_nil_r. }
  repeat split.
  - exact Hpad.
  - exact Hlen.
  - rewrite adjust_length_truncate by lia. exact Hfirst.
  - exact Hfirst.
  - apply adjust_length_same.
  - intros interp log Hshape Hexp. unfold run_model, bind, emit, lift.
    rewrite Hexp, adjust_length_same, Hshape. now rewrite <- app_assoc.
Qed.

Lemma pad_truncate_roundtrip_witness :
  adjust_length (adjust_length [Fin 1; Fin 2.5] 4) 2 = [Fin 1; Fin 2.5] /\
  adjust_length [Fin 1; Fin 2.5] 4 = [Fin 1; Fin 2.5; Fin 2.5; Fin 2.5].
Proof.
  assert (Hne : [Fin 1; Fin 2.5] <> []) by discriminate.
  assert (Hle : (List.length [Fin 1; Fin 2.5] <= 4)%nat) by (simpl; lia).
  destruct (pad_truncate_roundtrip [Fin 1; Fin 2.5] 4 Hne Hle)
    as (Hpad & _ & Hround & _).
  split; [exact Hround | exact Hpad].
Defined.

(** ** Arg-max and the threshold *)

Lemma np_le_NaN (x : pyfloat) : np_le x NaN = true.
Proof. reflexivity. Qed.

Lemma np_le_refl (x : pyfloat) : np_le x x = true.
Proof. destruct x as [|q]; simpl; [reflexivity|]. apply Qle_bool_iff, Qle_refl. Qed.

(** A value that replaces the running maximum is above all that the
    maximum was above. *)
Lemma np_le_replace (x mp y : pyfloat) :
  isnan mp = false -> fle y mp = false ->
  np_le x mp = true -> np_le x y = true.
Proof.
  destruct mp as [|m]; [discriminate|]. intros _ Hy Hx.
  destruct y as [|q]; [reflexivity|].
  destruct x as [|p]; [discriminate|]. simpl in *.
  apply fle_Fin_false in Hy. apply Qle_bool_iff in Hx.
  apply Qle_bool_iff. lra.
Qed.

Lemma np_le_keep (y mp : pyfloat) : fle y mp = true -> np_le y mp = true.
Proof. destruct y, mp; simpl; congruence. Qed.

(** The invariant of the loop of [argmax]: [pre] are the values seen so
    far, [mp] is one of them, at index [max_ind], and none is above it. *)
Lemma argmax_from_max (rest pre : list pyfloat) (mp : pyfloat) (max_ind : nat) :
  nth_error pre max_ind = Some mp ->
  (forall x, In x pre -> np_le x mp = true) ->
  exists conf,
    nth_error (pre ++ rest)
              (argmax_from mp max_ind (List.length pre) rest) = Some conf /\
    (forall x, In x (pre ++ rest) -> np_le x conf = true).
Proof.
  revert pre mp max_ind.
  induction rest as [|y rest IH]; intros pre mp max_ind Hnth Hmax.
  - exists mp. rewrite app_nil_r. simpl. split; assumption.
  - simpl. destruct (isnan mp) eqn:Enan.
    + exists mp. split.
      * rewrite nth_error_app1; [exact Hnth|].
        apply nth_error_Some. congruence.
      * intros x _. destruct mp; [reflexivity|discriminate].
    + replace (pre ++ y :: rest) with ((pre ++ [y]) ++ rest)
        by (rewrite <- app_assoc; reflexivity).
      replace (S (List.length pre)) with (List.length (pre ++ [y]))
        by (rewrite length_app; simpl; lia).
      destruct (fle y mp) eqn:Ele; simpl.
      * apply IH.
        -- rewrite nth_error_app1; [exact Hnth|].
           apply nth_error_Some. congruence.
        -- intros x Hin. apply in_app_or in Hin. destruct Hin as [Hin|[<-|[]]].
           ++ apply Hmax, Hin.
           ++ apply np_le_keep, Ele.
      * apply IH.
        -- rewrite nth_error_app2 by lia.
           rewrite Nat.sub_diag. reflexivity.
        -- intros x Hin. apply in_app_or in Hin. destruct Hin as [Hin|[<-|[]]].
           ++ apply (np_le_replace x mp y Enan Ele), Hmax, Hin.
           ++ apply np_le_refl.
Qed.

Lemma np_argmax_max (output : list pyfloat) :
  output <> [] ->
  exists idx conf,
    np_argmax output = Ok idx /\
    nth_error output idx = Some conf /\
    (forall x, In x output -> np_le x conf = true).
Proof.
  destruct output as [|x r]; [congruence|]. intros _.
  destruct (argmax_from_max r [x] x 0 eq_refl) as (conf & Hnth & Hmax).
  - intros y [<-|[]]. apply np_le_refl.
  - exists (argmax_from x 0 1 r), conf. repeat split; assumption.
Qed.

Lemma nth_error_nth_NaN (l : list pyfloat) (i : nat) (v : pyfloat) :
  nth_error l i = Some v -> nth i l NaN = v.
Proof. intro H. apply nth_error_nth. exact H. Qed.

(** C2. On a non-empty output vector, [classify] takes the index that
    NumPy's arg-max gives and the value there, which no value of the
    vector is above, as the confidence.  It returns the undetected label
    exactly when that value is strictly below the threshold 0.8;
    otherwise (so also at 0.8) it returns the class name at that index,
    which exists for every vector that is not longer than the list of
    classes.  In both cases the confidence is that largest value. *)
Theorem classify_threshold (output : list pyfloat) :
  output <> [] ->
  exists idx conf,
    np_argmax output = Ok idx /\
    nth_error output idx = Some conf /\
    (forall x, In x output -> np_le x conf = true) /\
    (forall q, conf = Fin q -> (flt conf CONF_THRESHOLD = true <-> q < 0.8)) /\
    (flt conf CONF_THRESHOLD = true ->
     classify output = Ok (UNDETECTED_LABEL, conf, output)) /\
    (flt conf CONF_THRESHOLD = false ->
     forall label,
       nth_error CLASS_NAMES idx = Some label ->
       classify output = Ok (label, conf, output) /\
       label <> UNDETECTED_LABEL) /\
    ((List.length output <= List.length CLASS_NAMES)%nat ->
     exists label, nth_error CLASS_NAMES idx = Some label).
Proof.
  intros Hne.
  destruct (np_argmax_max output Hne) as (idx & conf & Harg & Hnth & Hmax).
  exists idx, conf.
  split; [exact Harg|]. split; [exact Hnth|]. split; [exact Hmax|].
  split; [|split; [|split]].
  - intros q ->. apply flt_Fin.
  - intro Hlt. unfold classify. rewrite Harg.
    rewrite (nth_error_nth_NaN _ _ _ Hnth), Hlt. reflexivity.
  - intros Hge label Ename. split.
    + unfold classify, class_name. rewrite Harg.
      rewrite (nth_error_nth_NaN _ _ _ Hnth), Hge, Ename. reflexivity.
    + apply nth_error_In in Ename. simpl in Ename.
      destruct Ename as [<-|[<-|[<-|[]]]]; discriminate.
  - intro Hlen.
    assert (Hidx : (idx < List.length CLASS_NAMES)%nat).
    { assert (idx < List.length output)%nat
        by (apply nth_error_Some; congruence). lia. }
    destruct (nth_error CLASS_NAMES idx) as [label|] eqn:Ename.
    + exists label. reflexivity.
    + apply nth_error_None in Ename. lia.
Qed.

Lemma classify_threshold_witness :
  classify [Fin 0.1; Fin 0.8; Fin 0.1] =
  Ok ("Salt"%string, Fin 0.8, [Fin 0.1; Fin 0.8; Fin 0.1]) /\
  classify [Fin 0.3; Fin 0.2; Fin 0.1] =
  Ok (UNDETECTED_LABEL, Fin 0.3, [Fin 0.3; Fin 0.2; Fin 0.1]).
Proof.
  split.
  - destruct (classify_threshold [Fin 0.1; Fin 0.8; Fin 0.1])
      as (idx & conf & Harg & Hnth & _ & _ & _ & Hdet & _).
    + discriminate.
    + injection Harg as <-. injection Hnth as <-.
      apply (Hdet eq_refl "Salt"%string eq_refl).
  - destruct (classify_threshold [Fin 0.3; Fin 0.2; Fin 0.1])
      as (idx & conf & Harg & Hnth & _ & _ & Hund & _).
    + discriminate.
    + injection Harg as <-. injection Hnth as <-.
      apply Hund. reflexivity.
Defined.

(** ** The pipeline of [main] *)

Lemma run_main_loaded (w : world) (interp : interpreter) :
  model_file w = Ok interp -> run_main w = after_load w interp.
Proof.
  intro Hload.
  unfold run_main, main, after_load, load_model, run_scan_substance,
    bind, try_except, emit, lift, ret, raise.
  rewrite Hload. simpl.
  destruct (scan_script w) as [rc|]; simpl; [|reflexivity].
  destruct (rc =? 0)%Z; simpl; [|reflexivity].
  destruct (find_latest_csv_without_prefix (scans_after w)); [|reflexivity].
  destruct (stale _ _); reflexivity.
Qed.

Lemma run_main_load_fails (w : world) (e : exn) :
  model_file w = Raise e -> run_main w = (Raise e, [CallLoadModel]).
Proof.
  intro Hload. unfold run_main, main, load_model, bind, emit, lift.
  rewrite Hload. reflexivity.
Qed.

(** The run of the [try] block of [main], by what the CSV holds. *)
Lemma main_try_read_fails w interp latest log e :
  csv_absorbance w latest = Raise e ->
  main_try w interp latest log = (Raise e, log ++ [CallReadCsv latest]).
Proof.
  intro H. unfold main_try, read_absorbance_column, bind, emit, lift.
  rewrite H. reflexivity.
Qed.

Lemma main_try_invalid w interp latest log a :
  csv_absorbance w latest = Ok a ->
  invalid_absorbance a = true ->
  main_try w interp latest log =
  (Ok (Some (""%string, Fin 0, SCAN_AGAIN)), log ++ [CallReadCsv latest]).
Proof.
  intros H Hinv. unfold main_try, read_absorbance_column, bind, emit, lift.
  rewrite H, Hinv. reflexivity.
Qed.

Lemma main_try_valid w interp latest log a :
  csv_absorbance w latest = Ok a ->
  invalid_absorbance a = false ->
  main_try w interp latest log =
  match run_model interp (np_diff a) (log ++ [CallReadCsv latest]) with
  | (Ok output, log') =>
      match classify output with
      | Ok (label, conf, _) => (Ok (Some (label, conf, ""%string)), log')
      | Raise e => (Raise e, log')
      end
  | (Raise e, log') => (Raise e, log')
  end.
Proof.
  intros H Hinv.
  unfold main_try, read_absorbance_column, get_nir_from_device, bind, emit, lift.
  rewrite H, Hinv.
  destruct (run_model interp (np_diff a) (log ++ [CallReadCsv latest]))
    as [[output|e] log']; [|reflexivity].
  destruct (classify output) as [[[label conf] probs]|e]; reflexivity.
Qed.

(** A log only grows. *)
Lemma run_model_log interp x log :
  exists more, snd (run_model interp x log) = log ++ more.
Proof.
  unfold run_model, bind, emit, lift, raise.
  destruct (supported_shape (input_shape interp)); simpl.
  - exists [CallRunModel x; CallInvoke (adjust_length x
             (expected_len (input_shape interp) (List.length x)))].
    rewrite <- app_assoc. reflexivity.
  - exists [CallRunModel x]. reflexivity.
Qed.

(** ** Artifact discovery *)





Lemma run_model_no_read interp x log f :
  In (CallReadCsv f) (snd (run_model interp x log)) -> In (CallReadCsv f) log.
Proof.
  unfold run_model, bind, emit, lift, raise.
  destruct (supported_shape (input_shape interp)); simpl; intro H;
    repeat (apply in_app_or in H; destruct H as [H|[H|[]]]; try discriminate H);
    exact H.
Qed.

Lemma run_model_invoked interp x log out :
  fst (run_model interp x log) = Ok out ->
  exists x', invoke interp x' = Ok out.
Proof.
  unfold run_model, bind, emit, lift, raise.
  destruct (supported_shape (input_shape interp)); simpl; [|discriminate].
  intro H. eexists. exact H.
Qed.

(** The only CSV that the [try] block of [main] reads is [latest]. *)
Lemma main_try_reads w interp latest log f :
  In (CallReadCsv f)
     (snd (try_except (main_try w interp latest) (fun _ => ret None) log)) ->
  In (CallReadCsv f) log \/ f = latest.
Proof.
  assert (Hread : In (CallReadCsv f) (log ++ [CallReadCsv latest]) ->
                  In (CallReadCsv f) log \/ f = latest).
  { intro H. apply in_app_or in H. destruct H as [H|[H|[]]]; [now left|].
    right. congruence. }
  unfold try_except.
  destruct (csv_absorbance w latest) as [a|e] eqn:Ecsv.
  - destruct (invalid_absorbance a) eqn:Einv.
    + rewrite (main_try_invalid _ _ _ _ _ Ecsv Einv). exact Hread.
    + rewrite (main_try_valid _ _ _ _ _ Ecsv Einv).
      destruct (run_model interp (np_diff a) (log ++ [CallReadCsv latest]))
        as [[output|e] log'] eqn:Erun.
      * assert (Hlog : log' = snd (run_model interp (np_diff a)
                                     (log ++ [CallReadCsv latest])))
          by (rewrite Erun; reflexivity).
        destruct (classify output) as [[[label conf] probs]|e]; simpl;
          intro H; apply Hread; rewrite Hlog in H;
          exact (run_model_no_read _ _ _ _ H).
      * assert (Hlog : log' = snd (run_model interp (np_diff a)
                                     (log ++ [CallReadCsv latest])))
          by (rewrite Erun; reflexivity).
        simpl. intro H. apply Hread. rewrite Hlog in H.
        exact (run_model_no_read _ _ _ _ H).
  - rewrite (main_try_read_fails _ _ _ _ _ Ecsv). exact Hread.
Qed.

Lemma stale_false (b mtime : Q) : stale (Some b) mtime = false <-> b < mtime.
Proof.
  unfold stale. split.
  - intro H. apply Qnot_le_lt. intro Hle. apply Qle_bool_iff in Hle. congruence.
  - intro H. destruct (Qle_bool mtime b) eqn:E; [|reflexivity].
    apply Qle_bool_iff in E. exfalso. exact (Qlt_not_le _ _ H E).
Qed.

Lemma stale_true (b mtime : Q) : stale (Some b) mtime = true <-> mtime <= b.
Proof. unfold stale. apply Qle_bool_iff. Qed.

(** C3. With a baseline recorded before the scan, the only artifact that
    [main] ever reads is the newest digit-named candidate found after the
    scan, and its modification time is strictly above the baseline; when
    there is no candidate, or the newest one is not newer than the
    baseline, [main] returns [None] and reads no artifact. *)
Theorem staleness_guard (w : world) (interp : interpreter) (pre : file) :
  model_file w = Ok interp ->
  find_latest_csv_without_prefix (scans_before w) = Some pre ->
  (forall f, In (CallReadCsv f) (snd (run_main w)) ->
             find_latest_csv_without_prefix (scans_after w) = Some f /\
             st_mtime pre < st_mtime f) /\
  (scan_script w = Some 0%Z ->
   find_latest_csv_without_prefix (scans_after w) = None \/
   (exists f, find_latest_csv_without_prefix (scans_after w) = Some f /\
              st_mtime f <= st_mtime pre) ->
   run_main w = (Ok None, [CallLoadModel; CallScan])).
Proof.
  intros Hload Hpre. rewrite (run_main_loaded w interp Hload).
  unfold after_load. rewrite Hpre. simpl option_map. split.
  - intros f.
    destruct (scan_script w) as [rc|]; [|simpl; intuition discriminate].
    destruct (rc =? 0)%Z; [|simpl; intuition discriminate].
    destruct (find_latest_csv_without_prefix (scans_after w)) as [latest|];
      [|simpl; intuition discriminate].
    destruct (stale (Some (st_mtime pre)) (st_mtime latest)) eqn:Est;
      [simpl; intuition discriminate|].
    intro H. apply main_try_reads in H.
    destruct H as [[H|[H|[]]]|H]; try discriminate H.
    subst f. split; [reflexivity|]. apply stale_false, Est.
  - intros Hscan Hnone. rewrite Hscan, Z.eqb_refl.
    destruct Hnone as [Hnone|(f & Hf & Hle)].
    + rewrite Hnone. reflexivity.
    + rewrite Hf. apply stale_true in Hle. rewrite Hle. reflexivity.
Qed.

Lemma invalid_absorbance_iff (a : list pyfloat) :
  invalid_absorbance a = true <-> In NaN a \/ (List.length a < 228)%nat.
Proof.
  unfold invalid_absorbance. rewrite orb_true_iff, Nat.ltb_lt, existsb_exists.
  split; intros [H|H]; auto; left.
  - destruct H as (x & Hin & Hx). destruct x; [exact Hin|discriminate].
  - exists NaN. split; [exact H|reflexivity].
Qed.

(** C5. When the absorbance column of the scan's artifact holds a
    not-a-number or fewer than 228 values, [main] calls neither
    [run_model] nor the interpreter, and, once the scan has produced a
    fresh artifact, it returns an empty label, the confidence 0.0 and the
    "scan again" message. *)
Theorem validation_precedes_inference
    (w : world) (latest : file) (absorbance : list pyfloat) :
  find_latest_csv_without_prefix (scans_after w) = Some latest ->
  csv_absorbance w latest = Ok absorbance ->
  In NaN absorbance \/ (List.length absorbance < 228)%nat ->
  (forall x, ~ In (CallRunModel x) (snd (run_main w)) /\
             ~ In (CallInvoke x) (snd (run_main w))) /\
  (forall interp,
      model_file w = Ok interp ->
      scan_script w = Some 0%Z ->
      stale (option_map st_mtime
               (find_latest_csv_without_prefix (scans_before w)))
            (st_mtime latest) = false ->
      run_main w = (Ok (Some (""%string, Fin 0, SCAN_AGAIN)),
                    [CallLoadModel; CallScan; CallReadCsv latest])).
Proof.
  intros Hlatest Hcsv Hbad. apply invalid_absorbance_iff in Hbad.
  assert (Htry : forall interp,
             try_except (main_try w interp latest) (fun _ => ret None)
                        [CallLoadModel; CallScan] =
             (Ok (Some (""%string, Fin 0, SCAN_AGAIN)),
              [CallLoadModel; CallScan; CallReadCsv latest])).
  { intro interp. unfold try_except.
    rewrite (main_try_invalid _ _ _ _ _ Hcsv Hbad). reflexivity. }
  split.
  - intro x. destruct (model_file w) as [interp|e] eqn:Hload.
    + rewrite (run_main_loaded w interp Hload). unfold after_load.
      rewrite Hlatest.
      destruct (scan_script w) as [rc|]; [destruct (rc =? 0)%Z|];
        [destruct (stale _ _); [|rewrite Htry]| |]; simpl;
        intuition discriminate.
    + rewrite (run_main_load_fails w e Hload). simpl. intuition discriminate.
  - intros interp Hload Hscan Hfresh.
    rewrite (run_main_loaded w interp Hload). unfold after_load.
    rewrite Hscan, Hlatest, Hfresh. simpl. apply Htry.
Qed.

Lemma staleness_guard_witness :
  run_main (bench_world 0 [old_scan; labelled_scan]
                        (Ok (repeat (Fin 0) 228)) [Fin 0.1; Fin 0.9; Fin 0]) =
  (Ok None, [CallLoadModel; CallScan]).
Proof.
  apply (proj2 (staleness_guard
                  (bench_world 0 [old_scan; labelled_scan]
                     (Ok (repeat (Fin 0) 228)) [Fin 0.1; Fin 0.9; Fin 0])
                  (model_of [Fin 0.1; Fin 0.9; Fin 0]) old_scan
                  eq_refl eq_refl)).
  - reflexivity.
  - right. exists old_scan. split; [reflexivity|]. apply Qle_refl.
Defined.

Lemma validation_precedes_inference_witness :
  run_main (bench_world 0 [old_scan; new_scan]
                        (Ok (NaN :: repeat (Fin 0) 300)) [Fin 0.1; Fin 0.9; Fin 0]) =
  (Ok (Some (""%string, Fin 0, SCAN_AGAIN)),
   [CallLoadModel; CallScan; CallReadCsv new_scan]).
Proof.
  apply (proj2 (validation_precedes_inference
                  (bench_world 0 [old_scan; new_scan]
                     (Ok (NaN :: repeat (Fin 0) 300)) [Fin 0.1; Fin 0.9; Fin 0])
                  new_scan (NaN :: repeat (Fin 0) 300)
                  eq_refl eq_refl (or_introl (or_introl eq_refl)))
               (model_of [Fin 0.1; Fin 0.9; Fin 0])); reflexivity.
Defined.

(** ** The confidence *)

Lemma classify_conf_in (output probs : list pyfloat) (label : string)
    (conf : pyfloat) :
  classify output = Ok (label, conf, probs) -> In conf output.
Proof.
  destruct output as [|x r]; [discriminate|].
  destruct (np_argmax_max (x :: r)) as (idx & c & Harg & Hnth & _);
    [discriminate|].
  unfold classify. rewrite Harg, (nth_error_nth_NaN _ _ _ Hnth).
  intro H. assert (conf = c).
  { destruct (flt c CONF_THRESHOLD); [congruence|].
    destruct (class_name idx); congruence. }
  subst c. apply nth_error_In in Hnth. exact Hnth.
Qed.

(** What [main] returns as a confidence is 0.0 or a value of the output
    vector of the model. *)
Lemma main_conf_origin (w : world) (label err : string) (conf : pyfloat) :
  fst (run_main w) = Ok (Some (label, conf, err)) ->
  conf = Fin 0 \/
  exists interp x out,
    model_file w = Ok interp /\ invoke interp x = Ok out /\ In conf out.
Proof.
  destruct (model_file w) as [interp|e] eqn:Hload;
    [|rewrite (run_main_load_fails w e Hload); discriminate].
  rewrite (run_main_loaded w interp Hload). unfold after_load.
  destruct (scan_script w) as [rc|]; [|discriminate].
  destruct (rc =? 0)%Z; [|discriminate].
  destruct (find_latest_csv_without_prefix (scans_after w)) as [latest|];
    [|discriminate].
  destruct (stale _ _); [discriminate|].
  unfold try_except.
  destruct (csv_absorbance w latest) as [a|e] eqn:Ecsv.
  - destruct (invalid_absorbance a) eqn:Einv.
    + rewrite (main_try_invalid _ _ _ _ _ Ecsv Einv). simpl.
      intro H. left. congruence.
    + rewrite (main_try_valid _ _ _ _ _ Ecsv Einv).
      destruct (run_model interp (np_diff a) _) as [[output|e] log'] eqn:Erun;
        [|discriminate].
      destruct (classify output) as [[[l c] probs]|e] eqn:Ecl; [|discriminate].
      simpl. intro H. right.
      destruct (run_model_invoked interp (np_diff a)
                  ([CallLoadModel; CallScan] ++ [CallReadCsv latest]) output)
        as (x' & Hx'); [rewrite Erun; reflexivity|].
      exists interp, x', output. repeat split; try assumption.
      replace conf with c by congruence.
      exact (classify_conf_in _ _ _ _ Ecl).
  - rewrite (main_try_read_fails _ _ _ _ _ Ecsv). discriminate.
Qed.

(** C6, as the code has it.  The confidence that [main] returns is
    within 0 and 1 when every value of the output vector of the model
    is: the code passes the largest value on as it is. *)
Theorem confidence_bound_normalized
    (w : world) (label err : string) (conf : pyfloat) :
  (forall interp x out,
      model_file w = Ok interp -> invoke interp x = Ok out ->
      Forall unit_interval out) ->
  fst (run_main w) = Ok (Some (label, conf, err)) ->
  unit_interval conf.
Proof.
  intros Hnorm Hret.
  destruct (main_conf_origin w label err conf Hret)
    as [->|(interp & x & out & Hload & Hinv & Hin)].
  - simpl. split; discriminate.
  - pose proof (Hnorm interp x out Hload Hinv) as Hall.
    rewrite Forall_forall in Hall. apply Hall, Hin.
Qed.

Lemma confidence_bound_normalized_witness :
  unit_interval (Fin 0.9).
Proof.
  apply (confidence_bound_normalized
           (bench_world 0 [old_scan; new_scan]
              (Ok (repeat (Fin 0) 228)) [Fin 0.1; Fin 0.9; Fin 0])
           "Salt"%string ""%string (Fin 0.9)).
  - intros interp x out Hload Hinv.
    injection Hload as <-. injection Hinv as <-.
    repeat constructor; discriminate.
  - vm_compute. reflexivity.
Defined.

(** C6, as the claim states it, fails: a model that answers scores
    outside 0 to 1 gives a confidence above 1. *)
Lemma confidence_bound_counterexample :
  fst (run_main (bench_world 0 [old_scan; new_scan]
                   (Ok (repeat (Fin 0) 228)) [Fin 1.5; Fin 0.2; Fin 0.1])) =
  Ok (Some ("MSG"%string, Fin 1.5, ""%string)) /\
  flt (Fin 1) (Fin 1.5) = true.
Proof. split; vm_compute; reflexivity. Qed.

(** ** What [main] returns when a scan fails *)

Lemma worker_finish_running r a : running (worker_finish r a) = running a.
Proof.
  unfold worker_finish, worker_writes.
  destruct (worker_call r) as [[[res conf] err]|e]; simpl; [|reflexivity].
  destruct (negb (String.eqb err "")); [reflexivity|].
  destruct (String.eqb res "Undetected" || String.eqb res "UNKNOWN");
    reflexivity.
Qed.

Lemma worker_error_raise e a :
  shows_error (worker_finish (Some (Raise e)) a) "CRASH" (str_exn e).
Proof. repeat split. Qed.

Lemma worker_error_none a :
  shows_error (worker_finish (Some (Ok None)) a) "CRASH" NONE_UNPACK.
Proof. repeat split. Qed.

Lemma worker_error_err label conf err a :
  err <> ""%string ->
  shows_error (worker_finish (Some (Ok (Some (label, conf, err)))) a)
              "SYS ERR" err.
Proof.
  intro Hne. unfold worker_finish, worker_writes. simpl.
  destruct (String.eqb_spec err ""); [contradiction|]. repeat split.
Qed.

Lemma worker_error_missing a :
  shows_error (worker_finish None a) "SYS ERR" "Missing File".
Proof. repeat split. Qed.

(** C10. [main] returns [None], not a triple, when the scanner fails,
    when no digit-named artifact is found after the scan, when the newest
    one is not newer than the baseline, and when the [try] block raises;
    the unpacking in [worker] then raises a [TypeError], which the
    handler of [worker] turns into the ERROR display. *)
Theorem main_returns_None (w : world) (interp : interpreter) :
  model_file w = Ok interp ->
  (scan_script w = None \/ (exists rc, scan_script w = Some rc /\ rc <> 0%Z) ->
   fst (run_main w) = Ok None) /\
  (scan_script w = Some 0%Z ->
   find_latest_csv_without_prefix (scans_after w) = None ->
   fst (run_main w) = Ok None) /\
  (scan_script w = Some 0%Z ->
   forall pre latest,
     find_latest_csv_without_prefix (scans_before w) = Some pre ->
     find_latest_csv_without_prefix (scans_after w) = Some latest ->
     st_mtime latest <= st_mtime pre ->
     fst (run_main w) = Ok None) /\
  (scan_script w = Some 0%Z ->
   forall latest e,
     find_latest_csv_without_prefix (scans_after w) = Some latest ->
     fst (main_try w interp latest [CallLoadModel; CallScan]) = Raise e ->
     fst (run_main w) = Ok None) /\
  unpack_main (Ok None) = Raise (TypeError NONE_UNPACK) /\
  (forall a, fst (run_main w) = Ok None ->
             shows_error (worker_finish (Some (fst (run_main w))) a)
                         "CRASH" NONE_UNPACK).
Proof.
  intro Hload. rewrite (run_main_loaded w interp Hload). unfold after_load.
  split; [|split; [|split; [|split; [|split]]]].
  - intros [Hnone|(rc & Hrc & Hnz)].
    + rewrite Hnone. reflexivity.
    + rewrite Hrc. apply Z.eqb_neq in Hnz. rewrite Hnz. reflexivity.
  - intros Hscan Hnone. rewrite Hscan, Z.eqb_refl, Hnone. reflexivity.
  - intros Hscan pre latest Hpre Hlatest Hle.
    rewrite Hscan, Z.eqb_refl, Hlatest, Hpre. simpl option_map.
    apply stale_true in Hle. rewrite Hle. reflexivity.
  - intros Hscan latest e Hlatest Hraise.
    rewrite Hscan, Z.eqb_refl, Hlatest.
    destruct (stale _ _); [reflexivity|].
    unfold try_except.
    destruct (main_try w interp latest [CallLoadModel; CallScan])
      as [[o|e'] log']; [discriminate|reflexivity].
  - reflexivity.
  - intros a Hret. rewrite Hret. apply worker_error_none.
Qed.

Lemma main_returns_None_witness :
  fst (run_main (bench_world 1 [old_scan; new_scan]
                   (Ok (repeat (Fin 0) 228)) [Fin 0.1; Fin 0.9; Fin 0])) =
  Ok None.
Proof.
  apply (proj1 (main_returns_None
                  (bench_world 1 [old_scan; new_scan]
                     (Ok (repeat (Fin 0) 228)) [Fin 0.1; Fin 0.9; Fin 0])
                  (model_of [Fin 0.1; Fin 0.9; Fin 0]) eq_refl)).
  right. exists 1%Z. split; [reflexivity|discriminate].
Defined.

(** ** The worker and the loop *)

(** The focus stays on one of the two menu items. *)
Lemma handle_input_focus a key :
  focus_index a = 0%Z \/ focus_index a = 1%Z ->
  focus_index (handle_input a key) = 0%Z \/
  focus_index (handle_input a key) = 1%Z.
Proof.
  intro H. unfold handle_input, start_scan.
  destruct (current_screen a), key;
    cbn [button_eqb orb andb negb];
    repeat match goal with
    | |- context [if ?c then _ else _] => destruct c
    end;
    unfold set_focus_index, set_scan_status, set_current_screen,
      set_running, set_workers;
    cbn [focus_index]; lia.
Qed.

Lemma step_focus a ev :
  focus_index a = 0%Z \/ focus_index a = 1%Z ->
  focus_index (step a ev) = 0%Z \/ focus_index (step a ev) = 1%Z.
Proof.
  intro H. unfold step. destruct (running a); simpl; [|exact H].
  destruct ev as [b|quit|r].
  - exact H.
  - unfold tick, get_next_button.
    destruct quit; simpl; destruct (button_queue a) as [|b q]; simpl;
      try exact H; apply handle_input_focus; exact H.
  - destruct (workers a =? 0)%nat; [exact H|].
    unfold worker_finish, worker_writes.
    destruct (worker_call r) as [[[res conf] err]|e]; simpl; [|exact H].
    destruct (negb (String.eqb err "")); [exact H|].
    destruct (String.eqb res "Undetected" || String.eqb res "UNKNOWN");
      exact H.
Qed.

Lemma exec_focus evs a :
  focus_index a = 0%Z \/ focus_index a = 1%Z ->
  focus_index (exec a evs) = 0%Z \/ focus_index (exec a evs) = 1%Z.
Proof.
  revert a. induction evs as [|ev evs IH]; intros a H; simpl.
  - exact H.
  - apply IH, step_focus, H.
Qed.

Lemma handle_input_running a key :
  running a = true ->
  running (handle_input a key) = false ->
  current_screen a = menu /\ key = ENTER /\ focus_index a <> 0%Z.
Proof.
  intros Hrun. unfold handle_input, start_scan.
  destruct (current_screen a), key;
    cbn [button_eqb orb andb negb];
    repeat match goal with
    | |- context [if ?c then _ else _] => destruct c eqn:?
    end;
    unfold set_focus_index, set_scan_status, set_current_screen,
      set_running, set_workers;
    cbn [running]; intro H; try congruence.
  repeat split. apply Z.eqb_neq. assumption.
Qed.

(** C4, as the code has it.  Whatever goes wrong in a scan (an exception
    out of [main], a [None] instead of a triple, a triple with an error
    message, a missing [classify] module), the worker leaves the ERROR
    status with the code CRASH or SYS ERR and the detail text, and does
    not touch [running]; a run of [main] either classifies or ends in
    ERROR.  [running] becomes false only in an iteration of [run] that
    finds a QUIT event of the window system, or that takes ENTER from
    the queue on the menu with the focus on SYSTEM OFF. *)
Theorem error_containment :
  (forall r a, running (worker_finish r a) = running a) /\
  (forall a e,
      shows_error (worker_finish (Some (Raise e)) a) "CRASH" (str_exn e)) /\
  (forall a,
      shows_error (worker_finish (Some (Ok None)) a) "CRASH" NONE_UNPACK) /\
  (forall a label conf err,
      err <> ""%string ->
      shows_error (worker_finish (Some (Ok (Some (label, conf, err)))) a)
                  "SYS ERR" err) /\
  (forall a, shows_error (worker_finish None a) "SYS ERR" "Missing File") /\
  (forall w a,
      classified (Some (fst (run_main w))) \/
      scan_status (worker_finish (Some (fst (run_main w))) a) = ERROR) /\
  (forall evs ev,
      running (exec init evs) = true ->
      running (step (exec init evs) ev) = false ->
      ev = Tick true \/
      (ev = Tick false /\
       current_screen (exec init evs) = menu /\
       focus_index (exec init evs) = 1%Z /\
       exists q, button_queue (exec init evs) = ENTER :: q)).
Proof.
  split; [exact worker_finish_running|].
  split; [intros a e; apply worker_error_raise|].
  split; [exact worker_error_none|].
  split; [intros a label conf err; apply worker_error_err|].
  split; [exact worker_error_missing|].
  split.
  - intros w a. destruct (fst (run_main w)) as [[[[label conf] err]|]|e].
    + destruct (String.eqb_spec err "") as [->|Hne].
      * left. exists label, conf. reflexivity.
      * right. apply (worker_error_err label conf err a Hne).
    + right. apply worker_error_none.
    + right. apply worker_error_raise.
  - intros evs ev.
    pose proof (exec_focus evs init (or_introl eq_refl)) as Hfocus.
    set (a := exec init evs) in *. intros Hrun Hstop.
    unfold step in Hstop. rewrite Hrun in Hstop. simpl in Hstop.
    destruct ev as [b|quit|r].
    + simpl in Hstop. congruence.
    + destruct quit; [left; reflexivity|right].
      unfold tick, get_next_button in Hstop.
      destruct (button_queue a) as [|b q] eqn:Hq; [congruence|].
      apply handle_input_running in Hstop; [|exact Hrun].
      destruct Hstop as (Hscreen & -> & Hne). simpl in Hscreen, Hne.
      repeat split; [exact Hscreen|lia|exists q; reflexivity].
    + destruct (workers a =? 0)%nat; [congruence|].
      rewrite worker_finish_running in Hstop. congruence.
Qed.

Lemma error_containment_witness :
  shows_error
    (worker_finish (Some (Ok (Some (""%string, Fin 0, SCAN_AGAIN)))) init)
    "SYS ERR" SCAN_AGAIN.
Proof.
  destruct error_containment as (_ & _ & _ & Herr & _).
  apply Herr. discriminate.
Defined.

(** C4, as the claim states it, fails: a QUIT event ends the loop of
    [run] from the initial state, with nothing in the button queue. *)
Lemma quit_event_terminates :
  running init = true /\
  button_queue init = [] /\
  running (step init (Tick true)) = false.
Proof. repeat split. Qed.

(** C1.  On the scan screen ENTER does nothing while the status is
    SCANNING; but entering the scan screen from the menu sets the status
    back to IDLE, so that after RIGHT, ENTER and ENTER a second worker runs
    beside the first. *)
Theorem single_flight_reentry :
  (forall a, current_screen a = scan -> scan_status a = SCANNING ->
             handle_input a ENTER = a) /\
  workers (exec init (firstn 4 reenter_events)) = 1%nat /\
  scan_status (exec init (firstn 4 reenter_events)) = SCANNING /\
  workers (exec init (firstn 8 reenter_events)) = 1%nat /\
  scan_status (exec init (firstn 8 reenter_events)) = IDLE /\
  workers (exec init reenter_events) = 2%nat.
Proof.
  split; [|repeat split].
  intros a Hscreen Hstatus. unfold handle_input.
  rewrite Hscreen, Hstatus. reflexivity.
Qed.

(** ** Scenarios of the specification *)

Example stem_of_scan_name :
  stem "20251210152633.csv" = "20251210152633"%string /\
  stem ".csv" = ".csv"%string /\
  stem "a.b.csv" = "a.b"%string.
Proof. repeat split. Qed.

Example candidates_are_digit_named :
  candidates [old_scan; labelled_scan; mkFile "123.txt" 400; new_scan] =
  [old_scan; new_scan].
Proof. reflexivity. Qed.

Example up_button_sample :
  detect_button (read_ads1115 (Some (BusData 3 32))) = Some UP.
Proof. reflexivity. Qed.


(** A spectrum of 228 valid points whose largest output value is
    0.95 at index 1 is classified as Salt with the confidence 0.95, and
    the worker displays SALT and 95.0%. *)
Theorem scenario_salt_detected :
  fst (run_main (bench_world 0 [old_scan; new_scan]
                   (Ok (repeat (Fin 0) 228)) [Fin 0.02; Fin 0.95; Fin 0.03])) =
  Ok (Some ("Salt"%string, Fin 0.95, ""%string)) /\
  (let a := worker_finish (Some (Ok (Some ("Salt"%string, Fin 0.95, ""%string))))
                          (start_scan init) in
   scan_status a = RESULT /\ result_text a = "SALT"%string /\
   conf_text a = "95.0%"%string /\ workers a = 0%nat).
Proof. split; [vm_compute; reflexivity|repeat split]. Qed.

(** With no digit-named artifact in the directory after the scan,
    [main] returns [None] and the worker leaves the ERROR status. *)
Theorem scenario_empty_directory :
  run_main (bench_world 0 [] (Ok (repeat (Fin 0) 228))
                        [Fin 0.02; Fin 0.95; Fin 0.03]) =
  (Ok None, [CallLoadModel; CallScan]) /\
  shows_error (worker_finish (Some (Ok None)) (start_scan init))
              "CRASH" NONE_UNPACK.
Proof. split; [reflexivity|repeat split]. Qed.

(** The transitions of the menu and of the scan screen: UP and DOWN
    toggle the focus, ENTER on the first item opens the scan screen in
    the IDLE status, ENTER on the scan screen starts a worker unless the
    status is SCANNING, RIGHT leads back to the menu. *)
Theorem handle_input_transitions (a : app) :
  (current_screen a = menu ->
   handle_input a UP = set_focus_index (1 - focus_index a) a /\
   handle_input a DOWN = set_focus_index (1 - focus_index a) a /\
   handle_input a RIGHT = a /\
   (focus_index a = 0%Z ->
    handle_input a ENTER = set_scan_status IDLE (set_current_screen scan a)) /\
   (focus_index a <> 0%Z -> handle_input a ENTER = set_running false a)) /\
  (current_screen a = scan ->
   handle_input a UP = a /\
   handle_input a DOWN = a /\
   handle_input a RIGHT = set_current_screen menu a /\
   (scan_status a <> SCANNING -> handle_input a ENTER = start_scan a) /\
   (scan_status a = SCANNING -> handle_input a ENTER = a)).
Proof.
  unfold handle_input. split; intros ->; repeat split.
  - intros ->. reflexivity.
  - intro H. apply Z.eqb_neq in H. simpl. rewrite H. reflexivity.
  - intro H. destruct (scan_status a); try reflexivity. congruence.
  - intros ->. reflexivity.
Qed.


(** * Further properties of the code *)

(** ** The state machine of [app.py] *)

(** X5. In every state that the application reaches the focus is on one
    of the two menu items, and on the menu two presses of UP or DOWN
    bring the state back. *)
Theorem focus_on_menu_items :
  (forall evs,
      focus_index (exec init evs) = 0%Z \/ focus_index (exec init evs) = 1%Z) /\
  (forall a k1 k2,
      current_screen a = menu ->
      (k1 = UP \/ k1 = DOWN) -> (k2 = UP \/ k2 = DOWN) ->
      handle_input (handle_input a k1) k2 = a).
Proof.
  split.
  - intro evs. apply exec_focus. left. reflexivity.
  - intros [r s f st rt ct q w] k1 k2 Hs [-> | ->] [-> | ->];
      simpl in Hs; subst s; unfold handle_input, set_focus_index;
      cbn [current_screen focus_index running scan_status result_text
           conf_text button_queue workers button_eqb orb];
      f_equal; lia.
Qed.

Lemma focus_on_menu_items_witness :
  handle_input (handle_input init UP) DOWN = init.
Proof.
  apply (proj2 focus_on_menu_items init UP DOWN eq_refl);
    [left | right]; reflexivity.
Defined.

Lemma worker_finish_status r a :
  scan_status (worker_finish r a) = RESULT \/
  scan_status (worker_finish r a) = ERROR.
Proof.
  unfold worker_finish, worker_writes.
  destruct (worker_call r) as [[[res conf] err]|e]; simpl; [|now right].
  destruct (negb (String.eqb err "")); [now right|].
  destruct (String.eqb res "Undetected" || String.eqb res "UNKNOWN");
    now left.
Qed.

Lemma worker_finish_workers r a :
  workers (worker_finish r a) = pred (workers a).
Proof.
  unfold worker_finish, worker_writes.
  destruct (worker_call r) as [[[res conf] err]|e]; simpl; [|reflexivity].
  destruct (negb (String.eqb err "")); [reflexivity|].
  destruct (String.eqb res "Undetected" || String.eqb res "UNKNOWN");
    reflexivity.
Qed.

(** X6. A worker that finishes leaves the status RESULT or ERROR, never
    IDLE or SCANNING, and touches neither the screen, the focus, the
    button queue nor [running]. *)
Theorem worker_finish_frame (r : option (result outcome)) (a : app) :
  (scan_status (worker_finish r a) = RESULT \/
   scan_status (worker_finish r a) = ERROR) /\
  current_screen (worker_finish r a) = current_screen a /\
  focus_index (worker_finish r a) = focus_index a /\
  button_queue (worker_finish r a) = button_queue a /\
  running (worker_finish r a) = running a /\
  workers (worker_finish r a) = pred (workers a).
Proof.
  split; [apply worker_finish_status|].
  split; [|split; [|split; [|split;
    [apply worker_finish_running|apply worker_finish_workers]]]];
    unfold worker_finish, worker_writes;
    destruct (worker_call r) as [[[res conf] err]|e]; simpl;
    try reflexivity;
    destruct (negb (String.eqb err "")); try reflexivity;
    destruct (String.eqb res "Undetected" || String.eqb res "UNKNOWN");
    reflexivity.
Qed.

Lemma handle_input_scanning a key :
  (scan_status a = SCANNING -> (1 <= workers a)%nat) ->
  scan_status (handle_input a key) = SCANNING ->
  (1 <= workers (handle_input a key))%nat.
Proof.
  intro H. unfold handle_input, start_scan.
  destruct (current_screen a), key;
    cbn [button_eqb orb andb negb];
    repeat match goal with
    | |- context [if ?c then _ else _] => destruct c
    end;
    unfold set_focus_index, set_scan_status, set_current_screen,
      set_running, set_workers;
    cbn [scan_status workers]; try exact H; try discriminate; lia.
Qed.

Lemma step_scanning a ev :
  (scan_status a = SCANNING -> (1 <= workers a)%nat) ->
  scan_status (step a ev) = SCANNING -> (1 <= workers (step a ev))%nat.
Proof.
  intro H. unfold step. destruct (running a); simpl; [|exact H].
  destruct ev as [b|quit|r].
  - exact H.
  - unfold tick, get_next_button.
    destruct quit; simpl; destruct (button_queue a) as [|b q]; simpl;
      try exact H; apply handle_input_scanning; exact H.
  - destruct (workers a =? 0)%nat; [exact H|].
    intro Hs. destruct (worker_finish_status r a); congruence.
Qed.

(** X7. Whenever the status is SCANNING a worker is running: the scan
    screen never shows a scan in progress with no worker left to end it. *)
Theorem scanning_has_worker (evs : list event) :
  scan_status (exec init evs) = SCANNING ->
  (1 <= workers (exec init evs))%nat.
Proof.
  assert (H : forall a,
             (scan_status a = SCANNING -> (1 <= workers a)%nat) ->
             scan_status (exec a evs) = SCANNING ->
             (1 <= workers (exec a evs))%nat).
  { induction evs as [|ev evs IH]; intros a Ha; simpl.
    - exact Ha.
    - apply IH, step_scanning, Ha. }
  apply H. discriminate.
Qed.

Lemma scanning_has_worker_witness :
  (1 <= workers (exec init [Press ENTER; Tick false; Press ENTER; Tick false]))%nat.
Proof.
  apply (scanning_has_worker
           [Press ENTER; Tick false; Press ENTER; Tick false]).
  reflexivity.
Defined.





(** ** The button loop, further *)

(** X2. A button pressed right after another one, with no release
    between them, is appended as well; and a bus failure in the middle
    of a hold reads as a release, so that the held button is appended a
    second time. *)
Theorem poll_buttons_switch_and_fault (b1 b2 : button)
    (held1 held2 : list pyfloat) :
  held1 <> [] -> held2 <> [] ->
  Forall (fun mv => detect_button mv = Some b1) held1 ->
  Forall (fun mv => detect_button mv = Some b2) held2 ->
  (b1 <> b2 -> appended (poll_buttons (held1 ++ held2)) = [b1; b2]) /\
  (b1 = b2 ->
   appended (poll_buttons (held1 ++ held2)) = [b1] /\
   appended (poll_buttons
               (held1 ++ [read_ads1115 (Some BusFault)] ++ held2)) =
   [b1; b1]).
Proof.
  intros Hn1 Hn2 H1 H2. unfold poll_buttons. split.
  - intro Hne. rewrite fold_left_app.
    rewrite (poll_press held1 (mkPoller None []) b1 Hn1);
      [|simpl; discriminate|exact H1].
    rewrite (poll_press held2 _ b2 Hn2); [reflexivity| |exact H2].
    simpl. congruence.
  - intros <-. split.
    + rewrite (poll_press (held1 ++ held2) (mkPoller None []) b1);
        [reflexivity| | |].
      * destruct held1; [congruence|discriminate].
      * simpl. discriminate.
      * apply Forall_app. split; assumption.
    + rewrite !fold_left_app.
      rewrite (poll_press held1 (mkPoller None []) b1 Hn1);
        [|simpl; discriminate|exact H1].
      rewrite (poll_release [read_ads1115 (Some BusFault)]);
        [|discriminate|repeat constructor].
      rewrite (poll_press held2 _ b1 Hn2); [reflexivity| |exact H2].
      simpl. discriminate.
Qed.

Lemma poll_buttons_switch_and_fault_witness :
  appended (poll_buttons ([Fin 100] ++ [Fin 300])) = [UP; DOWN].
Proof.
  apply (proj1 (poll_buttons_switch_and_fault UP DOWN [Fin 100] [Fin 300]
                  ltac:(discriminate) ltac:(discriminate)
                  ltac:(repeat constructor) ltac:(repeat constructor))).
  discriminate.
Defined.

(** ** The ADC *)




(** ** Display start *)

Lemma init_display_all_fail {Scr : Type} (attempt : nat -> result Scr)
    (n i : nat) :
  (forall j, (j < n)%nat -> exists e, attempt (i + j)%nat = Raise e) ->
  init_display_from attempt i n =
  (Raise (RuntimeError "Display Init Failed"), n).
Proof.
  revert i. induction n as [|n IH]; intros i H; simpl; [reflexivity|].
  destruct (H 0%nat) as (e & He); [lia|].
  rewrite Nat.add_0_r in He. rewrite He.
  rewrite IH; [reflexivity|].
  intros j Hj. replace (S i + j)%nat with (i + S j)%nat by lia.
  apply H. lia.
Qed.

Lemma init_display_first_success {Scr : Type} (attempt : nat -> result Scr)
    (n i k : nat) (scr : Scr) :
  (k < n)%nat ->
  attempt (i + k)%nat = Ok scr ->
  (forall j, (j < k)%nat -> exists e, attempt (i + j)%nat = Raise e) ->
  init_display_from attempt i n = (Ok scr, k).
Proof.
  revert i k. induction n as [|n IH]; intros i k Hk Hok Hfail; [lia|].
  simpl. destruct k as [|k].
  - rewrite Nat.add_0_r in Hok. rewrite Hok. reflexivity.
  - destruct (Hfail 0%nat) as (e & He); [lia|].
    rewrite Nat.add_0_r in He. rewrite He.
    rewrite (IH (S i) k); [reflexivity|lia| |].
    + replace (S i + k)%nat with (i + S k)%nat by lia. exact Hok.
    + intros j Hj. replace (S i + j)%nat with (i + S j)%nat by lia.
      apply Hfail. lia.
Qed.

Lemma init_display_success_inv {Scr : Type} (attempt : nat -> result Scr)
    (n i k : nat) (scr : Scr) :
  init_display_from attempt i n = (Ok scr, k) ->
  (k < n)%nat /\ attempt (i + k)%nat = Ok scr /\
  (forall j, (j < k)%nat -> exists e, attempt (i + j)%nat = Raise e).
Proof.
  revert i k. induction n as [|n IH]; intros i k; simpl; [discriminate|].
  destruct (attempt i) as [s|e] eqn:Ea.
  - intro H. injection H as <- <-. rewrite Nat.add_0_r.
    repeat split; [lia|exact Ea|intros j Hj; lia].
  - destruct (init_display_from attempt (S i) n) as [r sleeps] eqn:Er.
    intro H. injection H as -> <-.
    destruct (IH (S i) sleeps Er) as (Hlt & Hok & Hfail).
    repeat split; [lia| |].
    + replace (i + S sleeps)%nat with (S i + sleeps)%nat by lia. exact Hok.
    + intros [|j] Hj.
      * exists e. rewrite Nat.add_0_r. exact Ea.
      * replace (i + S j)%nat with (S i + j)%nat by lia. apply Hfail. lia.
Qed.

(** X3. [safe_init_pygame_display] returns the screen of the first
    attempt that succeeds among the 30 it makes, after one sleep per
    failed attempt before it, and makes no attempt after it; when all 30
    attempts fail it raises "Display Init Failed" after 30 sleeps. *)
Theorem safe_init_pygame_display_retries {Scr : Type}
    (attempt : nat -> result Scr) :
  (forall k scr,
      safe_init_pygame_display attempt = (Ok scr, k) <->
      (k < 30)%nat /\ attempt k = Ok scr /\
      (forall j, (j < k)%nat -> exists e, attempt j = Raise e)) /\
  ((forall j, (j < 30)%nat -> exists e, attempt j = Raise e) <->
   safe_init_pygame_display attempt =
   (Raise (RuntimeError "Display Init Failed"), 30%nat)) /\
  (forall other,
      (forall j, (j < 30)%nat -> other j = attempt j) ->
      safe_init_pygame_display other = safe_init_pygame_display attempt).
Proof.
  unfold safe_init_pygame_display. split; [|split].
  - intros k scr. split.
    + intro H. exact (init_display_success_inv attempt 30 0 k scr H).
    + intros (Hk & Hok & Hfail).
      exact (init_display_first_success attempt 30 0 k scr Hk Hok Hfail).
  - split.
    + intro H. exact (init_display_all_fail attempt 30 0 H).
    + intros H j Hj.
      destruct (attempt j) as [scr|e] eqn:Ea; [|exists e; reflexivity].
      exfalso.
      assert (Hex : exists k, (k <= j)%nat /\ exists s, attempt k = Ok s /\
                forall i, (i < k)%nat -> exists e, attempt i = Raise e).
      { clear H Hj. revert scr Ea.
        induction j as [j IH] using lt_wf_ind. intros scr Ea.
        assert (Hdec : (forall i, (i < j)%nat -> exists e, attempt i = Raise e)
                       \/ exists i s, (i < j)%nat /\ attempt i = Ok s).
        { clear IH Ea. induction j as [|j IHj].
          - left. intros i Hi. lia.
          - destruct IHj as [Hall|(i & s & Hi & Hs)].
            + destruct (attempt j) as [s|e] eqn:Ej.
              * right. exists j, s. split; [lia|exact Ej].
              * left. intros i Hi.
                destruct (Nat.eq_dec i j) as [->|Hne];
                  [exists e; exact Ej|apply Hall; lia].
            + right. exists i, s. split; [lia|exact Hs]. }
        destruct Hdec as [Hall|(i & s & Hi & Hs)].
        - exists j. split; [lia|]. exists scr. split; assumption.
        - destruct (IH i Hi s Hs) as (k & Hk & Hrest).
          exists k. split; [lia|exact Hrest]. }
      destruct Hex as (k & Hk & s & Hs & Hfail).
      rewrite (init_display_first_success attempt 30 0 k s) in H;
        [discriminate|lia|exact Hs|exact Hfail].
  - intros other Hsame.
    assert (Hgen : forall n i, (i + n <= 30)%nat ->
               init_display_from other i n = init_display_from attempt i n).
    { induction n as [|n IH]; intros i Hi; simpl; [reflexivity|].
      rewrite (Hsame i) by lia. rewrite IH by lia. reflexivity. }
    apply Hgen. lia.
Qed.

Lemma safe_init_pygame_display_retries_witness :
  safe_init_pygame_display
    (fun i => if (i <? 3)%nat then Raise (OtherError "not ready")
              else Ok tt) = (Ok tt, 3%nat).
Proof.
  apply (proj1 (safe_init_pygame_display_retries _)).
  repeat split; [lia|].
  intros j Hj. exists (OtherError "not ready").
  destruct j as [|[|[|j]]]; try reflexivity. lia.
Defined.

(** ** The scan line *)

Lemma move_scan_line_inv (s : scan_line) :
  (exists k, scan_line_y s = 3 * k)%Z ->
  (scan_direction s = 1 /\ -3 <= scan_line_y s <= 138 \/
   scan_direction s = -1 /\ 0 <= scan_line_y s <= 141)%Z ->
  (exists k, scan_line_y (move_scan_line s) = 3 * k)%Z /\
  (scan_direction (move_scan_line s) = 1 /\
   -3 <= scan_line_y (move_scan_line s) <= 138 \/
   scan_direction (move_scan_line s) = -1 /\
   0 <= scan_line_y (move_scan_line s) <= 141)%Z.
Proof.
  intros [k Hk] H. unfold move_scan_line, box_h.
  cbn [scan_line_y scan_direction].
  destruct (Z.gtb_spec (scan_line_y s + 3 * scan_direction s) 140),
           (Z.ltb_spec (scan_line_y s + 3 * scan_direction s) 0);
    (split; [exists (k + scan_direction s)%Z; lia|lia]).
Qed.

(** X9. The scan line of the scanning screen moves in steps of 3
    between -3 and 141, whatever the number of frames drawn, so it is
    drawn within the canvas, at most 3 pixels above and 1 pixel below the
    box; it comes back to its start every 96 frames. *)
Theorem scan_line_bounds (frames : nat) :
  let s := Nat.iter frames move_scan_line scan_line_init in
  (scan_direction s = 1 \/ scan_direction s = -1)%Z /\
  (-3 <= scan_line_y s <= box_h + 1)%Z /\
  (box_y - 3 <= line_height s <= box_y + box_h + 1)%Z /\
  (0 <= line_height s < VIRTUAL_H)%Z /\
  Nat.iter (frames + 96) move_scan_line scan_line_init = s.
Proof.
  assert (Hinv : (exists k, scan_line_y
                    (Nat.iter frames move_scan_line scan_line_init) = 3 * k)%Z /\
                 (scan_direction
                    (Nat.iter frames move_scan_line scan_line_init) = 1 /\
                  -3 <= scan_line_y
                    (Nat.iter frames move_scan_line scan_line_init) <= 138 \/
                  scan_direction
                    (Nat.iter frames move_scan_line scan_line_init) = -1 /\
                  0 <= scan_line_y
                    (Nat.iter frames move_scan_line scan_line_init) <= 141)%Z).
  { induction frames as [|n IH]; simpl.
    - split; [exists 0%Z; reflexivity|left; simpl; lia].
    - destruct IH as [Hk Hb]. apply move_scan_line_inv; assumption. }
  intro s. fold s in Hinv. destruct Hinv as [_ Hb].
  unfold line_height, box_y, box_h, VIRTUAL_H.
  change ((240 - 140) / 2 + 10)%Z with 60%Z.
  repeat split; try lia.
  unfold s. rewrite Nat.iter_add.
  replace (Nat.iter 96 move_scan_line scan_line_init) with scan_line_init
    by (vm_compute; reflexivity).
  reflexivity.
Qed.

(** ** The names of the artifacts *)











(** ** scan_substance.py: the saved file and the discovery *)

Import ScanSubstance.











(** ** scan_substance.py: the absorbance *)

Lemma Qdiv_pos_iff (x y : Q) : 0 < y -> (0 < x / y <-> 0 < x).
Proof.
  intro Hy. split; intro H.
  - assert (E : x / y * y == x).
    { unfold Qdiv. rewrite <- Qmult_assoc, (Qmult_comm (/ y)), Qmult_inv_r.
      - apply Qmult_1_r.
      - intro E. rewrite E in Hy. exact (Qlt_irrefl 0 Hy). }
    rewrite <- E. apply Qmult_lt_0_compat; assumption.
  - apply Qlt_shift_div_l; [exact Hy|]. rewrite Qmult_0_l. exact H.
Qed.

(** One value of the absorbance is a number exactly when the reference
    and the intensity are positive numbers. *)
Lemma absorbance_at_defined (log10 : Q -> Q) (i r : pyfloat) :
  (forall qi qr, i = Fin qi -> r = Fin qr -> 0 < qr -> 0 < qi ->
     absorbance_at log10 (reflectance_at i r) = Fin (- log10 (qi / qr))) /\
  (isnan (absorbance_at log10 (reflectance_at i r)) = false <->
   exists qi qr, i = Fin qi /\ r = Fin qr /\ 0 < qr /\ 0 < qi).
Proof.
  split.
  - intros qi qr -> -> Hr Hi. unfold reflectance_at, absorbance_at.
    replace (flt (Fin 0) (Fin qr)) with true
      by (symmetry; apply flt_Fin; exact Hr).
    simpl fdiv_pos.
    replace (flt (Fin 0) (Fin (qi / qr))) with true
      by (symmetry; apply flt_Fin, Qdiv_pos_iff; assumption).
    reflexivity.
  - unfold reflectance_at, absorbance_at. split.
    + destruct r as [|qr]; [discriminate|].
      destruct (flt (Fin 0) (Fin qr)) eqn:Er; [|discriminate].
      destruct i as [|qi]; [discriminate|]. simpl fdiv_pos.
      destruct (flt (Fin 0) (Fin (qi / qr))) eqn:Ei; [|discriminate].
      intros _. apply flt_Fin in Er. apply flt_Fin in Ei.
      exists qi, qr. repeat split; try assumption.
      apply (Qdiv_pos_iff qi qr Er). exact Ei.
    + intros (qi & qr & -> & -> & Hr & Hi).
      replace (flt (Fin 0) (Fin qr)) with true
        by (symmetry; apply flt_Fin; exact Hr).
      simpl fdiv_pos.
      replace (flt (Fin 0) (Fin (qi / qr))) with true
        by (symmetry; apply flt_Fin, Qdiv_pos_iff; assumption).
      reflexivity.
Qed.

(** X19. The absorbance of a scan has one value per sample; a value is
    a number, -log10(intensity / reference), exactly where the reference
    and the intensity are positive numbers, and not-a-number elsewhere.
    Arrays of different lengths, none of one element, raise; without
    references there is no absorbance.  The simulated spectrum, whose
    references are all not-a-number, gets an absorbance that is
    not-a-number throughout, which the validation of [classify.py]
    rejects. *)
Theorem absorbance_mask (log10 : Q -> Q)
    (intensities references : list pyfloat) :
  compute_absorbance log10 intensities None = Ok None /\
  (List.length intensities = List.length references ->
   exists a,
     compute_absorbance log10 intensities (Some references) = Ok (Some a) /\
     List.length a = List.length intensities /\
     (forall k, (k < List.length intensities)%nat ->
        nth k a NaN =
        absorbance_at log10
          (reflectance_at (nth k intensities NaN) (nth k references NaN)) /\
        (isnan (nth k a NaN) = false <->
         exists qi qr,
           nth k intensities NaN = Fin qi /\ nth k references NaN = Fin qr /\
           0 < qr /\ 0 < qi))) /\
  (List.length intensities <> List.length references ->
   List.length intensities <> 1%nat -> List.length references <> 1%nat ->
   exists e, compute_absorbance log10 intensities (Some references) =
             Raise e) /\
  compute_absorbance log10 intensities
    (Some (simulated_references intensities)) =
  Ok (Some (repeat NaN (List.length intensities))) /\
  invalid_absorbance (repeat NaN (List.length intensities)) = true.
Proof.
  split; [reflexivity|]. split; [|split; [|split]].
  - intro Hlen. unfold compute_absorbance, broadcast2.
    rewrite Hlen, Nat.eqb_refl. eexists. split; [reflexivity|].
    split.
    + rewrite !length_map, length_combine, Hlen. apply Nat.min_id.
    + intros k Hk.
      assert (E : nth k
                (map (absorbance_at log10)
                   (map (fun xy => reflectance_at (fst xy) (snd xy))
                      (combine intensities references))) NaN =
              absorbance_at log10
                (reflectance_at (nth k intensities NaN)
                                (nth k references NaN))).
      { change NaN with (absorbance_at log10 NaN) at 1.
        rewrite map_nth.
        change NaN with ((fun xy => reflectance_at (fst xy) (snd xy))
                           (NaN, NaN)) at 1.
        rewrite map_nth, combine_nth by exact Hlen. reflexivity. }
      rewrite E. split; [reflexivity|].
      apply (proj2 (absorbance_at_defined log10 _ _)).
  - intros Hne H1 H2. unfold compute_absorbance, broadcast2.
    apply Nat.eqb_neq in Hne. rewrite Hne.
    destruct intensities as [|x [|y t]]; simpl in *;
      try (exfalso; apply H1; reflexivity);
      destruct references as [|u [|v s]]; simpl in *;
      try (exfalso; apply H2; reflexivity);
      eexists; reflexivity.
  - unfold compute_absorbance, broadcast2, simulated_references.
    rewrite repeat_length, Nat.eqb_refl. do 2 f_equal.
    induction intensities as [|x t IH]; simpl; [reflexivity|].
    rewrite IH. reflexivity.
  - apply invalid_absorbance_iff.
    destruct intensities as [|x t]; [right; simpl; lia|left; left; reflexivity].
Qed.

Lemma absorbance_mask_witness :
  exists a,
    compute_absorbance (fun q => q) [Fin 2; Fin 3; Fin 0]
                       (Some [Fin 4; Fin 0; Fin 5]) = Ok (Some a) /\
    List.length a = 3%nat.
Proof.
  destruct (proj1 (proj2 (absorbance_mask (fun q => q)
                            [Fin 2; Fin 3; Fin 0] [Fin 4; Fin 0; Fin 5]))
                  eq_refl) as (a & Ha & Hlen & _).
  exists a. split; assumption.
Defined.

(** ** [run_model], further *)

Lemma supported_shape_expected (shape : list nat) (n : nat) :
  supported_shape shape = true -> expected_len shape n = nth 1 shape 0%nat.
Proof.
  destruct shape as [|a [|b [|c [|d t]]]]; simpl; try discriminate;
    reflexivity.
Qed.

Lemma adjust_length_length (x : list pyfloat) (L : nat) :
  List.length (adjust_length x L) = L.
Proof.
  unfold adjust_length.
  destruct (Nat.eqb_spec (List.length x) L) as [E|E]; simpl; [exact E|].
  destruct (Nat.ltb_spec (List.length x) L) as [Hlt|Hge].
  - rewrite length_app, repeat_length. lia.
  - rewrite length_firstn. lia.
Qed.

Lemma adjust_length_nth (x : list pyfloat) (L k : nat) :
  (k < L)%nat ->
  nth k (adjust_length x L) NaN =
  if (k <? List.length x)%nat then nth k x NaN else last x (Fin 0).
Proof.
  intro Hk. unfold adjust_length.
  destruct (Nat.eqb_spec (List.length x) L) as [E|E]; simpl.
  - replace (k <? List.length x)%nat with true
      by (symmetry; apply Nat.ltb_lt; lia). reflexivity.
  - destruct (Nat.ltb_spec (List.length x) L) as [Hlt|Hge].
    + destruct (Nat.ltb_spec k (List.length x)) as [Hkx|Hkx].
      * apply app_nth1. exact Hkx.
      * rewrite app_nth2 by exact Hkx.
        rewrite nth_repeat_lt by lia.
        destruct x as [|a t]; reflexivity.
    + replace (k <? List.length x)%nat with true
        by (symmetry; apply Nat.ltb_lt; lia).
      rewrite nth_firstn.
      replace (k <? L)%nat with true by (symmetry; apply Nat.ltb_lt; lia).
      reflexivity.
Qed.

(** X13. With an input shape [[1, L]] or [[1, L, 1]], the interpreter
    is invoked once, on exactly [L] values: the first values of the
    spectrum, followed, when the spectrum is shorter, by copies of its
    last value (of 0.0 when it is empty).  With any other input shape
    [run_model] raises and the interpreter is not invoked. *)
Theorem run_model_feeds_expected_length
    (interp : interpreter) (x : list pyfloat) (log : list call) :
  (supported_shape (input_shape interp) = true ->
   run_model interp x log =
   (invoke interp (adjust_length x (nth 1 (input_shape interp) 0%nat)),
    log ++ [CallRunModel x;
            CallInvoke (adjust_length x (nth 1 (input_shape interp) 0%nat))]) /\
   List.length (adjust_length x (nth 1 (input_shape interp) 0%nat)) =
   nth 1 (input_shape interp) 0%nat /\
   (forall k, (k < nth 1 (input_shape interp) 0)%nat ->
      nth k (adjust_length x (nth 1 (input_shape interp) 0%nat)) NaN =
      if (k <? List.length x)%nat then nth k x NaN else last x (Fin 0))) /\
  (supported_shape (input_shape interp) = false ->
   run_model interp x log =
   (Raise (RuntimeError "Unsupported input shape"),
    log ++ [CallRunModel x])).
Proof.
  split; intro Hs; unfold run_model, bind, emit, lift, raise; rewrite Hs.
  - rewrite (supported_shape_expected _ _ Hs).
    split; [|split].
    + rewrite <- app_assoc. reflexivity.
    + apply adjust_length_length.
    + intros k Hk. apply adjust_length_nth. exact Hk.
  - reflexivity.
Qed.

Lemma run_model_feeds_expected_length_witness :
  run_model (model_of [Fin 0.1; Fin 0.9; Fin 0]) [] [] =
  (Ok [Fin 0.1; Fin 0.9; Fin 0],
   [CallRunModel []; CallInvoke (repeat (Fin 0) 227)]).
Proof.
  destruct (proj1 (run_model_feeds_expected_length
                     (model_of [Fin 0.1; Fin 0.9; Fin 0]) [] []) eq_refl)
    as (Hrun & _).
  exact Hrun.
Defined.

(** ** [classify], further *)

Lemma np_le_above (x mp y : pyfloat) :
  isnan mp = false -> fle y mp = false ->
  np_le x mp = true -> np_le y x = false.
Proof.
  destruct mp as [|m]; [discriminate|]. intros _ Hy Hx.
  destruct x as [|p]; [discriminate|].
  destruct y as [|q]; [reflexivity|]. simpl in *.
  apply fle_Fin_false in Hy. apply Qle_bool_iff in Hx.
  destruct (Qle_bool q p) eqn:E; [|reflexivity].
  apply Qle_bool_iff in E. exfalso. lra.
Qed.

(** The index that the loop of [argmax] returns is the first one that
    holds a largest value. *)
Lemma argmax_from_first (rest pre : list pyfloat) (mp : pyfloat)
    (max_ind : nat) :
  nth_error pre max_ind = Some mp ->
  (forall x, In x pre -> np_le x mp = true) ->
  (forall j x, (j < max_ind)%nat -> nth_error pre j = Some x ->
               np_le mp x = false) ->
  exists conf,
    nth_error (pre ++ rest)
              (argmax_from mp max_ind (List.length pre) rest) = Some conf /\
    (forall j x,
        (j < argmax_from mp max_ind (List.length pre) rest)%nat ->
        nth_error (pre ++ rest) j = Some x -> np_le conf x = false).
Proof.
  revert pre mp max_ind.
  induction rest as [|y rest IH]; intros pre mp max_ind Hnth Hmax Hfirst.
  - exists mp. rewrite app_nil_r. simpl. split; assumption.
  - assert (Hlt : (max_ind < List.length pre)%nat)
      by (apply nth_error_Some; congruence).
    simpl. destruct (isnan mp) eqn:Enan.
    + exists mp. split.
      * rewrite nth_error_app1 by exact Hlt. exact Hnth.
      * intros j x Hj Hx. rewrite nth_error_app1 in Hx by lia.
        exact (Hfirst j x Hj Hx).
    + replace (pre ++ y :: rest) with ((pre ++ [y]) ++ rest)
        by (rewrite <- app_assoc; reflexivity).
      replace (S (List.length pre)) with (List.length (pre ++ [y]))
        by (rewrite length_app; simpl; lia).
      destruct (fle y mp) eqn:Ele; simpl.
      * apply IH.
        -- rewrite nth_error_app1 by exact Hlt. exact Hnth.
        -- intros x Hin. apply in_app_or in Hin.
           destruct Hin as [Hin|[<-|[]]];
             [apply Hmax, Hin|apply np_le_keep, Ele].
        -- intros j x Hj Hx. rewrite nth_error_app1 in Hx by lia.
           exact (Hfirst j x Hj Hx).
      * apply IH.
        -- rewrite nth_error_app2 by lia. rewrite Nat.sub_diag. reflexivity.
        -- intros x Hin. apply in_app_or in Hin.
           destruct Hin as [Hin|[<-|[]]];
             [apply (np_le_replace x mp y Enan Ele), Hmax, Hin
             |apply np_le_refl].
        -- intros j x Hj Hx. rewrite nth_error_app1 in Hx by exact Hj.
           apply (np_le_above x mp y Enan Ele), Hmax.
           exact (nth_error_In _ _ Hx).
Qed.

Lemma class_name_in (idx : nat) (label : string) :
  class_name idx = Ok label -> nth_error CLASS_NAMES idx = Some label.
Proof.
  unfold class_name. destruct (nth_error CLASS_NAMES idx); congruence.
Qed.

(** X14. What [classify] returns: the output vector itself as third
    component, one of its values as confidence, at the first index that
    holds a largest value, and as label the undetected label or the class
    name at that index; a label is undetected only below the threshold
    and a class name only at or above it.  It raises only on an empty
    vector and on one that is longer than the list of classes. *)
Theorem classify_result (output : list pyfloat) :
  (forall label conf probs,
      classify output = Ok (label, conf, probs) ->
      probs = output /\
      (exists idx,
          np_argmax output = Ok idx /\
          nth_error output idx = Some conf /\
          (forall j x, (j < idx)%nat -> nth_error output j = Some x ->
                       np_le conf x = false) /\
          (label = UNDETECTED_LABEL /\ flt conf CONF_THRESHOLD = true \/
           nth_error CLASS_NAMES idx = Some label /\
           flt conf CONF_THRESHOLD = false))) /\
  (forall e,
      classify output = Raise e ->
      output = [] \/ (List.length CLASS_NAMES < List.length output)%nat).
Proof.
  destruct output as [|x r].
  { split; [discriminate|]. intros e _. left. reflexivity. }
  destruct (argmax_from_first r [x] x 0 eq_refl) as (conf & Hnth & Hfirst).
  { intros y [<-|[]]. apply np_le_refl. }
  { intros j y Hj. lia. }
  cbn [Datatypes.app Datatypes.length] in Hnth, Hfirst.
  unfold classify, np_argmax.
  rewrite (nth_error_nth_NaN _ _ _ Hnth).
  set (idx := argmax_from x 0 1 r) in *.
  split.
  - intros label c probs.
    destruct (flt conf CONF_THRESHOLD) eqn:Ethr.
    + intro H. injection H as <- <- <-. split; [reflexivity|].
      exists idx. repeat split; try assumption.
      left. split; [reflexivity|exact Ethr].
    + destruct (class_name idx) as [nm|e] eqn:Ecl; [|discriminate].
      intro H. injection H as <- <- <-. split; [reflexivity|].
      exists idx. repeat split; try assumption.
      right. split; [exact (class_name_in idx nm Ecl)|exact Ethr].
  - intros e. destruct (flt conf CONF_THRESHOLD); [discriminate|].
    unfold class_name.
    destruct (nth_error CLASS_NAMES idx) as [nm|] eqn:Ecl; [discriminate|].
    intros _. right. apply nth_error_None in Ecl.
    assert (idx < List.length (x :: r))%nat
      by (apply nth_error_Some; congruence). lia.
Qed.

Lemma classify_result_witness :
  exists idx,
    np_argmax [Fin 0.9; Fin 0.05; Fin 0.9] = Ok idx /\
    nth_error [Fin 0.9; Fin 0.05; Fin 0.9] idx = Some (Fin 0.9) /\
    idx = 0%nat.
Proof.
  destruct (proj1 (classify_result [Fin 0.9; Fin 0.05; Fin 0.9])
              "MSG"%string (Fin 0.9) [Fin 0.9; Fin 0.05; Fin 0.9] eq_refl)
    as (_ & idx & Harg & Hnth & _).
  exists idx. repeat split; try assumption.
  injection Harg as <-. reflexivity.
Defined.

(** X15. A not-a-number in the output vector of the three-class model
    is never reported as undetected: [classify] returns the class name
    at the index that arg-max gives, with a not-a-number confidence. *)
Theorem classify_nan_output (output : list pyfloat) :
  In NaN output ->
  (List.length output <= List.length CLASS_NAMES)%nat ->
  exists label,
    classify output = Ok (label, NaN, output) /\
    In label CLASS_NAMES /\ label <> UNDETECTED_LABEL.
Proof.
  intros Hnan Hlen.
  assert (Hne : output <> []) by (intros ->; destruct Hnan).
  destruct (np_argmax_max output Hne) as (idx & conf & Harg & Hnth & Hmax).
  assert (conf = NaN).
  { specialize (Hmax NaN Hnan). destruct conf; [reflexivity|discriminate]. }
  subst conf.
  assert (Hidx : (idx < List.length CLASS_NAMES)%nat).
  { assert (idx < List.length output)%nat
      by (apply nth_error_Some; congruence). lia. }
  destruct (nth_error CLASS_NAMES idx) as [label|] eqn:Ename;
    [|apply nth_error_None in Ename; lia].
  exists label.
  assert (Hin : In label CLASS_NAMES) by exact (nth_error_In _ _ Ename).
  repeat split; [|exact Hin|].
  - unfold classify, class_name.
    rewrite Harg, (nth_error_nth_NaN _ _ _ Hnth), Ename. reflexivity.
  - simpl in Hin. destruct Hin as [<-|[<-|[<-|[]]]]; discriminate.
Qed.

Lemma classify_nan_output_witness :
  exists label,
    classify [Fin 0.1; NaN; Fin 0.95] = Ok (label, NaN, [Fin 0.1; NaN; Fin 0.95]) /\
    In label CLASS_NAMES /\ label <> UNDETECTED_LABEL.
Proof.
  apply (classify_nan_output [Fin 0.1; NaN; Fin 0.95]).
  - right. left. reflexivity.
  - simpl. lia.
Defined.

(** ** [main], further *)

Lemma run_model_unfold interp x log :
  run_model interp x log =
  if supported_shape (input_shape interp) then
    (invoke interp
       (adjust_length x (expected_len (input_shape interp) (List.length x))),
     log ++ [CallRunModel x;
             CallInvoke (adjust_length x
                           (expected_len (input_shape interp)
                                         (List.length x)))])
  else (Raise (RuntimeError "Unsupported input shape"),
        log ++ [CallRunModel x]).
Proof.
  unfold run_model, bind, emit, lift, raise.
  destruct (supported_shape (input_shape interp)); [|reflexivity].
  rewrite <- app_assoc. reflexivity.
Qed.

(** X16. [main] calls its collaborators in one order and each at most
    once: the model loader, the scanner, the CSV reader on the newest
    candidate, [run_model] on the first differences of the column read,
    the interpreter on the length-adjusted differences.  A run may stop
    after any of them; it returns a classification only after all
    five. *)
Theorem main_call_order (w : world) :
  exists f a x,
    (exists n, (1 <= n)%nat /\
               snd (run_main w) = firstn n (full_calls f a x)) /\
    (In (CallReadCsv f) (snd (run_main w)) ->
     find_latest_csv_without_prefix (scans_after w) = Some f) /\
    (In (CallRunModel (np_diff a)) (snd (run_main w)) ->
     csv_absorbance w f = Ok a /\ invalid_absorbance a = false) /\
    (In (CallInvoke x) (snd (run_main w)) ->
     exists interp,
       model_file w = Ok interp /\
       x = adjust_length (np_diff a) (nth 1 (input_shape interp) 0%nat)) /\
    (forall label conf,
        fst (run_main w) = Ok (Some (label, conf, ""%string)) ->
        snd (run_main w) = full_calls f a x).
Proof.
  assert (Hshort : forall r n,
             (n = 1 \/ n = 2)%nat ->
             (forall label conf, r <> Ok (Some (label, conf, ""%string))) ->
             run_main w = (r, firstn n (full_calls (mkFile "" 0) [] [])) ->
             exists f a x,
               (exists n, (1 <= n)%nat /\
                          snd (run_main w) = firstn n (full_calls f a x)) /\
               (In (CallReadCsv f) (snd (run_main w)) ->
                find_latest_csv_without_prefix (scans_after w) = Some f) /\
               (In (CallRunModel (np_diff a)) (snd (run_main w)) ->
                csv_absorbance w f = Ok a /\ invalid_absorbance a = false) /\
               (In (CallInvoke x) (snd (run_main w)) ->
                exists interp,
                  model_file w = Ok interp /\
                  x = adjust_length (np_diff a)
                        (nth 1 (input_shape interp) 0%nat)) /\
               (forall label conf,
                   fst (run_main w) = Ok (Some (label, conf, ""%string)) ->
                   snd (run_main w) = full_calls f a x)).
  { intros r n Hn Hr Hrun. exists (mkFile "" 0), [], []. rewrite Hrun.
    split; [exists n; split; [lia|reflexivity]|].
    destruct Hn as [-> | ->]; cbn [fst snd firstn full_calls];
      (split; [simpl; intuition discriminate|];
       split; [simpl; intuition discriminate|];
       split; [simpl; intuition discriminate|];
       intros label conf Hc; destruct (Hr label conf Hc)). }
  destruct (model_file w) as [interp|e] eqn:Hload.
  2:{ apply (Hshort (Raise e) 1%nat); [now left|discriminate|].
      exact (run_main_load_fails w e Hload). }
  pose proof (run_main_loaded w interp Hload) as Hrun.
  unfold after_load in Hrun.
  destruct (scan_script w) as [rc|].
  2:{ apply (Hshort (Ok None) 1%nat); [now left|discriminate|exact Hrun]. }
  destruct (rc =? 0)%Z.
  2:{ apply (Hshort (Ok None) 2%nat); [now right|discriminate|exact Hrun]. }
  destruct (find_latest_csv_without_prefix (scans_after w)) as [latest|]
    eqn:Hlatest.
  2:{ apply (Hshort (Ok None) 2%nat); [now right|discriminate|exact Hrun]. }
  destruct (stale _ _).
  { apply (Hshort (Ok None) 2%nat); [now right|discriminate|exact Hrun]. }
  clear Hshort. unfold try_except in Hrun.
  destruct (csv_absorbance w latest) as [a|e] eqn:Ecsv.
  2:{ rewrite (main_try_read_fails _ _ _ _ _ Ecsv) in Hrun.
      exists latest, [], []. rewrite Hrun. cbn [fst snd].
      split; [exists 3%nat; split; [lia|reflexivity]|].
      split; [intros _; reflexivity|].
      split; [simpl; intuition discriminate|].
      split; [simpl; intuition discriminate|].
      intros label conf Hc. discriminate Hc. }
  destruct (invalid_absorbance a) eqn:Einv.
  { rewrite (main_try_invalid _ _ _ _ _ Ecsv Einv) in Hrun.
    exists latest, [], []. rewrite Hrun. cbn [fst snd].
    split; [exists 3%nat; split; [lia|reflexivity]|].
    split; [intros _; reflexivity|].
    split; [simpl; intuition discriminate|].
    split; [simpl; intuition discriminate|].
    intros label conf Hc. unfold SCAN_AGAIN in Hc. discriminate Hc. }
  rewrite (main_try_valid _ _ _ _ _ Ecsv Einv), run_model_unfold in Hrun.
  destruct (supported_shape (input_shape interp)) eqn:Hshape.
  - rewrite (supported_shape_expected _ _ Hshape) in Hrun.
    set (x := adjust_length (np_diff a) (nth 1 (input_shape interp) 0%nat))
      in *.
    exists latest, a, x.
    assert (Hlog : snd (run_main w) = full_calls latest a x).
    { rewrite Hrun. destruct (invoke interp x) as [output|e]; [|reflexivity].
      destruct (classify output) as [[[l c] p]|e]; reflexivity. }
    rewrite Hlog.
    split; [exists 5%nat; split; [lia|reflexivity]|].
    split; [intros _; reflexivity|].
    split; [intros _; split; assumption|].
    split; [intros _; exists interp; split; reflexivity|].
    intros _ _ _. reflexivity.
  - exists latest, a, []. rewrite Hrun. cbn [fst snd].
    split; [exists 4%nat; split; [lia|reflexivity]|].
    split; [intros _; reflexivity|].
    split; [intros _; split; assumption|].
    split; [simpl; intuition discriminate|].
    intros label conf Hc. discriminate Hc.
Qed.

Lemma classify_label (output probs : list pyfloat) (label : string)
    (conf : pyfloat) :
  classify output = Ok (label, conf, probs) ->
  label = UNDETECTED_LABEL /\ flt conf CONF_THRESHOLD = true \/
  In label CLASS_NAMES /\ flt conf CONF_THRESHOLD = false.
Proof.
  unfold classify. destruct (np_argmax output) as [idx|e]; [|discriminate].
  destruct (flt (nth idx output NaN) CONF_THRESHOLD) eqn:Ethr.
  - intro H. injection H as <- <- _. left. split; [reflexivity|exact Ethr].
  - destruct (class_name idx) as [nm|e] eqn:Ecl; [|discriminate].
    intro H. injection H as <- <- _. right. split; [|exact Ethr].
    exact (nth_error_In _ _ (class_name_in idx nm Ecl)).
Qed.

Lemma main_outcome_cases (w : world) (label err : string) (conf : pyfloat) :
  fst (run_main w) = Ok (Some (label, conf, err)) ->
  (label = ""%string /\ conf = Fin 0 /\ err = SCAN_AGAIN) \/
  (err = ""%string /\
   (label = UNDETECTED_LABEL /\ flt conf CONF_THRESHOLD = true \/
    In label CLASS_NAMES /\ flt conf CONF_THRESHOLD = false)).
Proof.
  destruct (model_file w) as [interp|e] eqn:Hload;
    [|rewrite (run_main_load_fails w e Hload); discriminate].
  rewrite (run_main_loaded w interp Hload). unfold after_load.
  destruct (scan_script w) as [rc|]; [|discriminate].
  destruct (rc =? 0)%Z; [|discriminate].
  destruct (find_latest_csv_without_prefix (scans_after w)) as [latest|];
    [|discriminate].
  destruct (stale _ _); [discriminate|].
  unfold try_except.
  destruct (csv_absorbance w latest) as [a|e] eqn:Ecsv.
  - destruct (invalid_absorbance a) eqn:Einv.
    + rewrite (main_try_invalid _ _ _ _ _ Ecsv Einv). simpl.
      intro H. injection H as <- <- <-. left. repeat split.
    + rewrite (main_try_valid _ _ _ _ _ Ecsv Einv).
      destruct (run_model interp (np_diff a) _) as [[output|e] log'];
        [|discriminate].
      destruct (classify output) as [[[l c] probs]|e] eqn:Ecl; [|discriminate].
      simpl. intro H. injection H as <- <- <-. right.
      split; [reflexivity|]. exact (classify_label _ _ _ _ Ecl).
  - rewrite (main_try_read_fails _ _ _ _ _ Ecsv). discriminate.
Qed.

(** X18. What a run of [main] hands to the worker, when it is a triple,
    is the validation error (empty label, 0.0, the "scan again" message)
    or a classification with an empty error: the undetected label below
    the threshold, or one of the three class names at or above it.  So
    the RESULT display of the worker after a run of [main] is UNDETECTED
    with the confidence ---, or one of MSG, SALT and SUGAR. *)
Theorem main_outcome_closed_set (w : world) :
  (forall label conf err,
      fst (run_main w) = Ok (Some (label, conf, err)) ->
      (label = ""%string /\ conf = Fin 0 /\ err = SCAN_AGAIN) \/
      (err = ""%string /\
       (label = UNDETECTED_LABEL /\ flt conf CONF_THRESHOLD = true \/
        In label CLASS_NAMES /\ flt conf CONF_THRESHOLD = false))) /\
  (forall a,
      scan_status (worker_finish (Some (fst (run_main w))) a) = RESULT ->
      (result_text (worker_finish (Some (fst (run_main w))) a) =
         "UNDETECTED"%string /\
       conf_text (worker_finish (Some (fst (run_main w))) a) = "---"%string) \/
      In (result_text (worker_finish (Some (fst (run_main w))) a))
         ["MSG"; "SALT"; "SUGAR"]%string).
Proof.
  split; [intros label conf err; apply main_outcome_cases|].
  intros a.
  destruct (fst (run_main w)) as [[[[label conf] err]|]|e] eqn:Hret;
    [|discriminate|discriminate].
  destruct (main_outcome_cases w label err conf Hret)
    as [(-> & -> & ->)|(-> & [[-> Hthr]|[Hin Hthr]])].
  - discriminate.
  - intros _. left. split; reflexivity.
  - intros _. right. simpl in Hin.
    destruct Hin as [<-|[<-|[<-|[]]]]; simpl; auto.
Qed.

(** X17. Once the model is loaded and the scanner has exited with
    status 0, the newest candidate found after the scan is read exactly
    when it is not stale; without a baseline, that is when no candidate
    existed before the scan, it is read whatever its modification time,
    and so is every candidate that is strictly newer than the baseline. *)
Theorem fresh_artifact_is_read (w : world) (interp : interpreter)
    (latest : file) :
  model_file w = Ok interp ->
  scan_script w = Some 0%Z ->
  find_latest_csv_without_prefix (scans_after w) = Some latest ->
  (In (CallReadCsv latest) (snd (run_main w)) <->
   stale (option_map st_mtime
            (find_latest_csv_without_prefix (scans_before w)))
         (st_mtime latest) = false) /\
  (find_latest_csv_without_prefix (scans_before w) = None ->
   In (CallReadCsv latest) (snd (run_main w))) /\
  (forall pre,
      find_latest_csv_without_prefix (scans_before w) = Some pre ->
      st_mtime pre < st_mtime latest ->
      In (CallReadCsv latest) (snd (run_main w))).
Proof.
  intros Hload Hscan Hlatest.
  assert (Hiff : In (CallReadCsv latest) (snd (run_main w)) <->
                 stale (option_map st_mtime
                          (find_latest_csv_without_prefix (scans_before w)))
                       (st_mtime latest) = false).
  { rewrite (run_main_loaded w interp Hload). unfold after_load.
    rewrite Hscan, Z.eqb_refl, Hlatest.
    destruct (stale _ _).
    - simpl. split; [intuition discriminate|discriminate].
    - split; [reflexivity|]. intros _. unfold try_except.
      destruct (csv_absorbance w latest) as [a|e] eqn:Ecsv.
      + destruct (invalid_absorbance a) eqn:Einv.
        * rewrite (main_try_invalid _ _ _ _ _ Ecsv Einv). simpl. auto.
        * rewrite (main_try_valid _ _ _ _ _ Ecsv Einv), run_model_unfold.
          destruct (supported_shape (input_shape interp)).
          -- destruct (invoke interp _) as [output|e];
               [destruct (classify output) as [[[l c] p]|e]|];
               simpl; auto.
          -- simpl. auto.
      + rewrite (main_try_read_fails _ _ _ _ _ Ecsv). simpl. auto. }
  split; [exact Hiff|]. split.
  - intro Hnone. apply Hiff. rewrite Hnone. reflexivity.
  - intros pre Hpre Hlt. apply Hiff. rewrite Hpre. simpl option_map.
    apply stale_false. exact Hlt.
Qed.

Lemma fresh_artifact_is_read_witness :
  In (CallReadCsv new_scan)
     (snd (run_main (bench_world 0 [old_scan; new_scan]
                       (Ok (repeat (Fin 0) 228)) [Fin 0.1; Fin 0.9; Fin 0]))).
Proof.
  apply (proj1 (fresh_artifact_is_read
                  (bench_world 0 [old_scan; new_scan]
                     (Ok (repeat (Fin 0) 228)) [Fin 0.1; Fin 0.9; Fin 0])
                  (model_of [Fin 0.1; Fin 0.9; Fin 0]) new_scan
                  eq_refl eq_refl eq_refl)).
  reflexivity.
Defined.

(** ** The button queue *)

Lemma handle_input_set_queue (q : list button) (a : app) (b : button) :
  handle_input (set_button_queue q a) b =
  set_button_queue q (handle_input a b).
Proof.
  destruct a as [r s f st rt ct q0 w].
  unfold handle_input, start_scan, set_button_queue.
  cbn [current_screen focus_index scan_status].
  destruct s, b; cbn [button_eqb orb andb negb]; try reflexivity.
  - destruct (f =? 0)%Z; reflexivity.
  - destruct st; reflexivity.
Qed.

Lemma handle_input_running_mono (a : app) (b : button) :
  running (handle_input a b) = true -> running a = true.
Proof.
  destruct (running a) eqn:Hr; [reflexivity|].
  destruct a as [r s f st rt ct q0 w]. simpl in Hr. subst r.
  unfold handle_input, start_scan.
  cbn [current_screen focus_index scan_status].
  destruct s, b; cbn [button_eqb orb andb negb]; try (intro H; exact H).
  - destruct (f =? 0)%Z; intro H; exact H.
  - destruct st; intro H; exact H.
Qed.

Lemma fold_handle_input_set_queue (bs q : list button) (a : app) :
  fold_left handle_input bs (set_button_queue q a) =
  set_button_queue q (fold_left handle_input bs a).
Proof.
  revert a. induction bs as [|b bs IH]; intro a; simpl; [reflexivity|].
  rewrite handle_input_set_queue. apply IH.
Qed.

Lemma fold_handle_input_running_mono (bs : list button) (a : app) :
  running (fold_left handle_input bs a) = true -> running a = true.
Proof.
  revert a. induction bs as [|b bs IH]; intro a; simpl; [auto|].
  intro H. apply (handle_input_running_mono a b), IH, H.
Qed.

Lemma set_button_queue_twice (q q' : list button) (a : app) :
  set_button_queue q (set_button_queue q' a) = set_button_queue q a.
Proof. reflexivity. Qed.

Lemma set_button_queue_same (a : app) :
  set_button_queue (button_queue a) a = a.
Proof. destruct a. reflexivity. Qed.

Lemma exec_ticks (q : list button) (a : app) :
  button_queue a = q ->
  running (fold_left handle_input q a) = true ->
  exec a (repeat (Tick false) (List.length q)) =
  set_button_queue [] (fold_left handle_input q a).
Proof.
  revert a. induction q as [|b q IH]; intros a Hq Hrun; simpl.
  - rewrite <- Hq. symmetry. apply set_button_queue_same.
  - simpl in Hrun.
    pose proof (handle_input_running_mono a b
                  (fold_handle_input_running_mono q _ Hrun)) as Ha.
    assert (Hstep : step a (Tick false) =
                    set_button_queue q (handle_input a b)).
    { unfold step. rewrite Ha. cbn [negb].
      unfold tick, get_next_button. rewrite Hq.
      apply handle_input_set_queue. }
    change (exec a (Tick false :: repeat (Tick false) (List.length q)))
      with (exec (step a (Tick false)) (repeat (Tick false) (List.length q))).
    rewrite Hstep, IH.
    + rewrite fold_handle_input_set_queue. reflexivity.
    + reflexivity.
    + rewrite fold_handle_input_set_queue. exact Hrun.
Qed.

Lemma exec_presses (bs : list button) (a : app) :
  running a = true ->
  exec a (map Press bs) = set_button_queue (button_queue a ++ bs) a.
Proof.
  revert a. induction bs as [|b bs IH]; intros a Hrun; simpl.
  - rewrite app_nil_r. symmetry. apply set_button_queue_same.
  - assert (Hstep : step a (Press b) =
                    set_button_queue (button_queue a ++ [b]) a).
    { unfold step. rewrite Hrun. reflexivity. }
    change (exec a (Press b :: map Press bs))
      with (exec (step a (Press b)) (map Press bs)).
    rewrite Hstep, IH by exact Hrun. simpl. rewrite <- app_assoc.
    reflexivity.
Qed.

(** X4. The button queue is first in, first out, and an iteration of
    [run] takes its oldest button only: buttons that the poller appended
    are handled in the order of their presses, one per iteration, as long
    as none of them ends the run. *)
Theorem button_queue_fifo :
  (forall quit a, button_queue (tick quit a) = tl (button_queue a)) /\
  (forall a bs,
      running a = true ->
      button_queue a = [] ->
      running (fold_left handle_input bs a) = true ->
      exec a (map Press bs ++ repeat (Tick false) (List.length bs)) =
      fold_left handle_input bs a).
Proof.
  split.
  - intros quit a. unfold tick, get_next_button.
    destruct quit; simpl; destruct (button_queue a) as [|b q] eqn:Hq;
      simpl; try (rewrite Hq; reflexivity);
      rewrite handle_input_set_queue; reflexivity.
  - intros a bs Hrun Hq Hend. unfold exec. rewrite fold_left_app.
    fold (exec a (map Press bs)). rewrite (exec_presses bs a Hrun), Hq.
    cbn [Datatypes.app].
    fold (exec (set_button_queue bs a)
               (repeat (Tick false) (List.length bs))).
    rewrite exec_ticks.
    + rewrite fold_handle_input_set_queue, set_button_queue_twice.
      rewrite <- Hq at 1.
      rewrite <- (fold_handle_input_set_queue bs (button_queue a) a).
      rewrite set_button_queue_same. reflexivity.
    + reflexivity.
    + rewrite fold_handle_input_set_queue. exact Hend.
Qed.

Lemma button_queue_fifo_witness :
  exec init (map Press [DOWN; UP; ENTER; ENTER] ++
             repeat (Tick false) (List.length [DOWN; UP; ENTER; ENTER])) =
  fold_left handle_input [DOWN; UP; ENTER; ENTER] init.
Proof.
  apply (proj2 button_queue_fifo init [DOWN; UP; ENTER; ENTER]);
    reflexivity.
Defined.
